(** * Search endpoint of postgres-server: query construction and tokenizer

    A shallow embedding of [internal/handler/query.go].  The file holds the
    two versions of [MakeQueryHandler] that the repository carries (the
    generic one, lines 1-125, and the ranking one with [prepareSearchTerms],
    lines 127-361), the fragments of Go's [strings] package they call, and
    the properties of the generated SQL, its bound arguments and the
    responses.

    Go strings are byte sequences: a [string] below is a sequence of bytes,
    one [ascii] per byte, and [String.length] is Go's [len]. *)

From Stdlib Require Import String Ascii List ZArith NArith Lia Bool.
From Stdlib Require Import DecimalString DecimalNat.
From stdpp Require Import base option gmap strings list.

Import ListNotations.
Local Open Scope string_scope.
Local Open Scope list_scope.

(** ** Go's [strings] and [fmt] fragments *)

Module GoStrings.

(** [c >= utf8.RuneSelf]: the byte starts or continues a multi-byte rune. *)
Definition nonASCII (c : ascii) : bool := (128 <=? N_of_ascii c)%N.

Definition isUpperByte (c : ascii) : bool :=
  ((65 <=? N_of_ascii c) && (N_of_ascii c <=? 90))%N.

(** ['A' <= c <= 'Z'] becomes [c + ('a' - 'A')]. *)
Definition lowerByte (c : ascii) : ascii :=
  if isUpperByte c then ascii_of_N (N_of_ascii c + 32) else c.

(** The table [asciiSpace] of package [strings]: tab, newline, vertical tab,
    form feed, carriage return, space. *)
Definition asciiSpace (c : ascii) : bool :=
  let n := N_of_ascii c in
  ((n =? 9) || (n =? 10) || (n =? 11) || (n =? 12) || (n =? 13) || (n =? 32))%N.

Fixpoint mapBytes (f : ascii -> ascii) (s : string) : string :=
  match s with
  | EmptyString => EmptyString
  | String c s' => String (f c) (mapBytes f s')
  end.

Fixpoint allBytes (p : ascii -> bool) (s : string) : bool :=
  match s with
  | EmptyString => true
  | String c s' => p c && allBytes p s'
  end.

Definition isASCII (s : string) : bool := allBytes (fun c => negb (nonASCII c)) s.

(** No byte of [s] is an ASCII capital letter. *)
Definition noUpper (s : string) : bool := allBytes (fun c => negb (isUpperByte c)) s.

(** The Unicode tables of Go's runtime are not part of the repository.  The
    three places where [strings.ToLower] and [strings.TrimSpace] leave their
    ASCII fast path are the fields of this class:
    [mapLower s] is [strings.Map(unicode.ToLower, s)],
    [trimFuncSpace s] is [strings.TrimFunc(s, unicode.IsSpace)] and
    [trimRightFuncSpace s] is [strings.TrimRightFunc(s, unicode.IsSpace)].
    The only fact used about them is that lower-casing leaves no ASCII
    capital behind. *)
Class Unicode := {
  mapLower : string -> string;
  trimFuncSpace : string -> string;
  trimRightFuncSpace : string -> string;
  mapLower_noUpper : forall s, noUpper (mapLower s) = true
}.

Section WithUnicode.
Context {U : Unicode}.

(** [strings.ToLower]: byte-wise on ASCII-only input, [strings.Map] otherwise. *)
Definition ToLower (s : string) : string :=
  if isASCII s then mapBytes lowerByte s else mapLower s.

(** Second loop of [strings.TrimSpace], run on the reversed remainder:
    [r] is [s[start:stop]] read from its last byte. *)
Fixpoint trimSpaceRight (r : list ascii) : string :=
  match r with
  | [] => EmptyString
  | c :: r' =>
      if nonASCII c then trimRightFuncSpace (string_of_list_ascii (rev r))
      else if asciiSpace c then trimSpaceRight r'
      else string_of_list_ascii (rev r)
  end.

(** [strings.TrimSpace]: first loop over the leading bytes, then the second
    loop from the end. *)
Fixpoint TrimSpace (s : string) : string :=
  match s with
  | EmptyString => EmptyString
  | String c s' =>
      if nonASCII c then trimFuncSpace s
      else if asciiSpace c then TrimSpace s'
      else trimSpaceRight (rev (list_ascii_of_string s))
  end.

End WithUnicode.

(** Loop of [strings.FieldsFunc] for a predicate that holds of ASCII runes
    only.  [cur] is the field being read ([None] when Go's [start] is
    negative).  Such a predicate never holds inside a multi-byte rune, nor
    of an invalid byte, so the fields of the byte sequence are the fields of
    the rune sequence. *)
Fixpoint fieldsLoop (f : ascii -> bool) (cur : option string) (s : string)
  : list string :=
  match s with
  | EmptyString => match cur with Some w => [w] | None => [] end
  | String c s' =>
      if f c then
        match cur with
        | Some w => w :: fieldsLoop f None s'
        | None => fieldsLoop f None s'
        end
      else
        fieldsLoop f (Some (match cur with
                            | Some w => w +:+ String c EmptyString
                            | None => String c EmptyString
                            end)) s'
  end.

Definition FieldsFunc (s : string) (f : ascii -> bool) : list string :=
  fieldsLoop f None s.

(** [strings.Join]. *)
Fixpoint Join (elems : list string) (sep : string) : string :=
  match elems with
  | [] => EmptyString
  | [e] => e
  | e :: rest => e +:+ sep +:+ Join rest sep
  end.

(** The verb [%d] of [fmt.Sprintf] at a non-negative [int]. *)
Definition itoa (n : nat) : string := NilEmpty.string_of_uint (Nat.to_uint n).

Arguments itoa : simpl never.

(** [m[k]] on a [map[string]bool]: the zero value [false] for a missing key. *)
Definition index (m : gmap string bool) (k : string) : bool :=
  default false (m !! k).

(** A model of the tables that touches ASCII bytes only; on ASCII-only
    input no function above consults it. *)
Fixpoint dropWhile (p : ascii -> bool) (l : list ascii) : list ascii :=
  match l with
  | [] => []
  | c :: l' => if p c then dropWhile p l' else l
  end.

Definition trimRightBytes (s : string) : string :=
  string_of_list_ascii (rev (dropWhile asciiSpace (rev (list_ascii_of_string s)))).

Definition trimBytes (s : string) : string :=
  trimRightBytes (string_of_list_ascii (dropWhile asciiSpace (list_ascii_of_string s))).

Lemma lowerByte_not_upper (c : ascii) : isUpperByte (lowerByte c) = false.
Proof.
  destruct c as [[] [] [] [] [] [] [] []]; reflexivity.
Qed.

Lemma mapBytes_lower_noUpper (s : string) : noUpper (mapBytes lowerByte s) = true.
Proof.
  induction s as [|c s IH]; [reflexivity|].
  unfold noUpper in *; simpl. now rewrite lowerByte_not_upper, IH.
Qed.

Definition asciiOnly : Unicode :=
  {| mapLower := mapBytes lowerByte;
     trimFuncSpace := trimBytes;
     trimRightFuncSpace := trimRightBytes;
     mapLower_noUpper := mapBytes_lower_noUpper |}.

End GoStrings.

Import GoStrings.

(** ** Data shared by the two handlers *)

(** A value handed to [db.QueryContext] after the SQL text. *)
Inductive Arg :=
| AString (s : string)
| AInt (n : Z).

(** A column value as the driver returns it into an [interface{}].  A
    [float64] is its IEEE 754 bit pattern.  A [time.Time] carries whether
    its [MarshalJSON] returns without an error (it fails for a year outside
    0..9999, and from Go 1.20 on for a zone offset of 24 hours or more) and
    its rendering. *)
Inductive Value :=
| VNil
| VInt64 (n : Z)
| VFloat64 (bits : Z)
| VBool (b : bool)
| VBytes (s : string)
| VString (s : string)
| VTime (marshals : bool) (rfc3339 : string).

(** The exponent field of the bit pattern is all ones: the value is a NaN
    or an infinity. *)
Definition notFinite (bits : Z) : bool :=
  (Z.land (Z.shiftr bits 52) 2047 =? 2047)%Z.

(** Whether [encoding/json] encodes the value: it refuses a [float64] that
    is a NaN or an infinity and a time whose [MarshalJSON] fails. *)
Definition encodable (v : Value) : bool :=
  match v with
  | VFloat64 bits => negb (notFinite bits)
  | VTime marshals _ => marshals
  | _ => true
  end.

(** What [*sql.Rows] yields: [Columns] is the result of [rows.Columns()]
    ([None] for an error), [Fetched] holds one entry per [rows.Next()] that
    returns true ([None] when the driver cannot deliver the row to [Scan]),
    and [IterErr] tells whether [rows.Err()] is non-nil once [Next] has
    returned false. *)
Record Rows := {
  Columns : option (list string);
  Fetched : list (option (list Value));
  IterErr : bool
}.

(** [rows.Scan(dest...)]: fails when the row is not delivered or when the
    number of destinations differs from the number of columns of the row. *)
Definition Scan (ndest : nat) (row : option (list Value)) : option (list Value) :=
  match row with
  | Some vals => if (length vals =? ndest)%nat then Some vals else None
  | None => None
  end.

(** One call of [db.QueryContext]. *)
Record DbCall := { sqlText : string; sqlArgs : list Arg }.

(** The storage: the answer to [db.QueryContext(ctx, query, args...)],
    [None] for a non-nil error (a timeout of the context included). *)
Definition DB := string -> list Arg -> option Rows.

(** The value written to the [http.ResponseWriter]; [NoBody] when the
    handler returns without having written anything. *)
Inductive Payload :=
| Plain (msg : string)
| ResultsCount (results : list (gmap string Value)) (count : nat)
| BareArray (results : list (gmap string Value))
| NoBody.

Record Response := { Status : nat; Body : Payload }.

(** [http.Error(w, msg, code)]. *)
Definition httpError (msg : string) (code : nat) : Response :=
  {| Status := code; Body := Plain msg |}.

(** A handler run: the response and the calls made to the storage. *)
Definition Outcome : Type := Response * list DbCall.

Definition StatusOK := 200.
Definition StatusBadRequest := 400.
Definition StatusMethodNotAllowed := 405.
Definition StatusInternalServerError := 500.

(** [rec[col] = values[i]] for every column, on a fresh map. *)
Definition rowMap (cols : list string) (values : list Value) : gmap string Value :=
  fold_left (fun m cv => <[fst cv := snd cv]> m) (combine cols values) ∅.

(** Whether [json.NewEncoder(w).Encode] encodes the records: every value
    of every record must be encodable.  The encoder marshals into a buffer
    of its own and writes to [w] only when that succeeds; the handlers drop
    its error, so on a failure nothing is written and the server sends the
    status 200 with an empty body. *)
Definition recordEncodable (rec : gmap string Value) : bool :=
  forallb (fun kv => encodable (snd kv)) (map_to_list rec).

Definition encodes (results : list (gmap string Value)) : bool :=
  forallb recordEncodable results.

(** The row loop both handlers run: one [Scan] into [len(cols)]
    destinations per fetched row, the record appended to [results]; the
    first failing [Scan] ends the request. *)
Fixpoint scanLoop (cols : list string) (fetched : list (option (list Value)))
  (results : list (gmap string Value)) : option (list (gmap string Value)) :=
  match fetched with
  | [] => Some results
  | row :: rest =>
      match Scan (length cols) row with
      | None => None
      | Some values => scanLoop cols rest (results ++ [rowMap cols values])
      end
  end.

(** ** The ranking handler (query.go, lines 127-361) *)

Module Ranking.

Record QueryRequest := {
  Model : string;
  Fields : list string;
  QueryText : string;
  MaxResults : Z;
  Fuzzy : bool
}.

(** The request as the handler sees it: the method and the outcome of
    [json.NewDecoder(r.Body).Decode(&req)] ([None] for an error).  A key
    missing from the JSON object leaves the zero value in its field. *)
Record Request := { Method : string; Decoded : option QueryRequest }.

Definition stopWords : gmap string bool :=
  list_to_map
    [("the", true); ("a", true); ("an", true); ("and", true); ("or", true);
     ("but", true); ("in", true); ("on", true); ("at", true); ("to", true);
     ("for", true); ("of", true); ("with", true); ("by", true); ("is", true);
     ("are", true); ("was", true); ("were", true); ("be", true);
     ("been", true); ("have", true); ("has", true); ("had", true);
     ("do", true); ("does", true); ("did", true); ("will", true);
     ("would", true); ("could", true); ("should", true); ("want", true);
     ("like", true); ("buy", true); ("need", true); ("please", true);
     ("give", true)].

Arguments stopWords : simpl never.

(** The separator predicate handed to [strings.FieldsFunc]:
    space, comma, semicolon, tab, newline. *)
Definition isSeparator (c : ascii) : bool :=
  let n := N_of_ascii c in
  ((n =? 32) || (n =? 44) || (n =? 59) || (n =? 9) || (n =? 10))%N.

(** Body of the loop over [rawTerms]. *)
Definition filterStep (filtered : list string) (term : string) : list string :=
  if (String.length term <? 2)%nat then filtered
  else if index stopWords term then filtered
  else filtered ++ [term].

Section WithUnicode.
Context {U : Unicode}.

Definition cleanedText (queryText : string) : string :=
  ToLower (TrimSpace queryText).

Definition rawTerms (queryText : string) : list string :=
  FieldsFunc (cleanedText queryText) isSeparator.

Definition filteredTerms (queryText : string) : list string :=
  fold_left filterStep (rawTerms queryText) [].

Definition prepareSearchTerms (queryText : string) : list string :=
  let cleaned := cleanedText queryText in
  let filtered := filteredTerms queryText in
  if (length filtered =? 0)%nat then [cleaned] else filtered.

End WithUnicode.

(** [if req.MaxResults <= 0 || req.MaxResults > 100 { req.MaxResults = 10 }] *)
Definition clampMaxResults (req : QueryRequest) : QueryRequest :=
  if ((MaxResults req <=? 0) || (100 <? MaxResults req))%Z then
    {| Model := Model req; Fields := Fields req; QueryText := QueryText req;
       MaxResults := 10; Fuzzy := Fuzzy req |}
  else req.

(** [allowedSet[f] = true] for every allowed field, on a fresh map. *)
Definition makeAllowedSet (allowedFields : list string) : gmap string bool :=
  fold_left (fun m f => <[f := true]> m) allowedFields ∅.

(** The loop over [req.Fields] that returns at the first field missing
    from [allowedSet]. *)
Definition firstNotAllowed (allowedSet : gmap string bool) (fields : list string)
  : option string :=
  find (fun f => negb (index allowedSet f)) fields.

Definition searchCols : list string := ["name"; "category"].

(** State of the loops that build the WHERE clause: the clauses (or the
    parts of one clause) so far, [args] and [argIdx]. *)
Definition BuildState : Type := list string * list Arg * nat.

(** Body of the loop over [searchCols]. *)
Definition colStep (likePattern : string) (st : BuildState) (col : string)
  : BuildState :=
  let '(parts, args, argIdx) := st in
  (parts ++ [col +:+ " ILIKE $" +:+ itoa argIdx],
   args ++ [AString likePattern],
   S argIdx).

(** Body of the loop over [terms]. *)
Definition termStep (st : BuildState) (t : string) : BuildState :=
  let '(whereClauses, args, argIdx) := st in
  let likePattern := "%" +:+ t +:+ "%" in
  let '(parts, args1, argIdx1) :=
    fold_left (colStep likePattern) searchCols ([], args, argIdx) in
  (whereClauses ++ ["(" +:+ Join parts " OR " +:+ ")"], args1, argIdx1).

Definition whereLoop (terms : list string) : BuildState :=
  fold_left termStep terms ([], [], 1).

Definition pickWhereClause (whereClauses : list string) : string :=
  if (0 <? length whereClauses)%nat then Join whereClauses " AND " else "1=1".

Definition LF : string := String (ascii_of_nat 10) EmptyString.

(** The raw string of the ORDER BY expression with its two [$%d]. *)
Definition orderClauseAt (argIdx : nat) : string :=
  LF +:+ "            CASE" +:+
  LF +:+ "                WHEN LOWER(name) LIKE LOWER($" +:+ itoa argIdx +:+ ") THEN 1" +:+
  LF +:+ "                WHEN LOWER(category) LIKE LOWER($" +:+ itoa (argIdx + 1) +:+ ") THEN 2" +:+
  LF +:+ "                ELSE 3" +:+
  LF +:+ "            END, name ASC" +:+
  LF +:+ "        ".

(** The raw string of the final statement with its five verbs. *)
Definition queryStrOf (selectCols model whereClause orderClause : string)
  (limitIdx : nat) : string :=
  LF +:+ "            SELECT " +:+ selectCols +:+
  LF +:+ "              FROM " +:+ model +:+
  LF +:+ "             WHERE " +:+ whereClause +:+
  LF +:+ "          ORDER BY " +:+ orderClause +:+
  LF +:+ "             LIMIT $" +:+ itoa limitIdx +:+
  LF +:+ "        ".

(** Everything lines 202-254 compute, for a request that passed validation
    and whose [MaxResults] is already clamped. *)
Record Query := {
  selectCols : string;
  terms : list string;
  whereClauses : list string;
  whereClause : string;
  exactPattern : string;
  orderClause : string;
  limitIdx : nat;
  queryStr : string;
  args : list Arg
}.

Section Handler.
Context {U : Unicode}.

Definition buildQuery (req : QueryRequest) : Query :=
  let selectCols := Join (Fields req) ", " in
  let terms := prepareSearchTerms (QueryText req) in
  let '(whereClauses, args, argIdx) := whereLoop terms in
  let whereClause := pickWhereClause whereClauses in
  let exactPattern := "%" +:+ ToLower (QueryText req) +:+ "%" in
  let orderClause := orderClauseAt argIdx in
  let args := args ++ [AString exactPattern; AString exactPattern] in
  let argIdx := argIdx + 2 in
  let args := args ++ [AInt (MaxResults req)] in
  let limitIdx := argIdx in
  {| selectCols := selectCols; terms := terms; whereClauses := whereClauses;
     whereClause := whereClause; exactPattern := exactPattern;
     orderClause := orderClause; limitIdx := limitIdx;
     queryStr := queryStrOf selectCols (Model req) whereClause orderClause limitIdx;
     args := args |}.

(** Lines 268-295: [cols, _ := rows.Columns()], the row loop, [rows.Err()]
    and the encoding of the bare slice, whose error is dropped: when the
    encoder fails the handler has written nothing and no status. *)
Definition respond (rows : Rows) : Response :=
  let cols := default [] (Columns rows) in
  match scanLoop cols (Fetched rows) [] with
  | None => httpError "row scan error" StatusInternalServerError
  | Some results =>
      if IterErr rows then httpError "row iteration error" StatusInternalServerError
      else if encodes results then {| Status := StatusOK; Body := BareArray results |}
      else {| Status := StatusOK; Body := NoBody |}
  end.

Definition MakeQueryHandler (db : DB) (allowed : gmap string (list string))
  (r : Request) : Outcome :=
  if negb (Method r =? "POST") then
    (httpError "method not allowed" StatusMethodNotAllowed, [])
  else
  match Decoded r with
  | None => (httpError "invalid JSON payload" StatusBadRequest, [])
  | Some req =>
  if Model req =? "" then
    (httpError "'model' is required" StatusBadRequest, [])
  else if (length (Fields req) =? 0)%nat then
    (httpError "'fields' array cannot be empty" StatusBadRequest, [])
  else if QueryText req =? "" then
    (httpError "'queryText' is required" StatusBadRequest, [])
  else
  let req := clampMaxResults req in
  match allowed !! Model req with
  | None => (httpError "model not found" StatusBadRequest, [])
  | Some allowedFields =>
  let allowedSet := makeAllowedSet allowedFields in
  match firstNotAllowed allowedSet (Fields req) with
  | Some f =>
      (httpError ("field '" +:+ f +:+ "' not allowed for model '" +:+ Model req +:+ "'")
                 StatusBadRequest, [])
  | None =>
  let q := buildQuery req in
  let call := {| sqlText := queryStr q; sqlArgs := args q |} in
  match db (queryStr q) (args q) with
  | None => (httpError "database query error" StatusInternalServerError, [call])
  | Some rows => (respond rows, [call])
  end
  end
  end
  end.

End Handler.

End Ranking.

(** ** The generic handler (query.go, lines 1-125) *)

Module Generic.

Record QueryRequest := {
  Model : string;
  QueryText : string;
  Fields : list string;
  MaxResults : Z
}.

Record Request := { Method : string; Decoded : option QueryRequest }.

(** The two nested loops that keep the requested fields found among the
    allowed columns. *)
Definition validateFields (fields cols : list string) : list string :=
  fold_left
    (fun fieldsToSearch f =>
       fold_left
         (fun fieldsToSearch ac =>
            if f =? ac then fieldsToSearch ++ [f] else fieldsToSearch)
         cols fieldsToSearch)
    fields [].

Definition clampMaxResults (req : QueryRequest) : QueryRequest :=
  if ((MaxResults req <=? 0) || (100 <? MaxResults req))%Z then
    {| Model := Model req; QueryText := QueryText req; Fields := Fields req;
       MaxResults := 10 |}
  else req.

Definition clauses (fieldsToSearch : list string) : list string :=
  fold_left (fun clauses f => clauses ++ [f +:+ " ILIKE '%' || $1 || '%'"])
            fieldsToSearch [].

Definition queryOf (model : string) (fieldsToSearch : list string) : string :=
  let where' := Join (clauses fieldsToSearch) " OR " in
  "SELECT * FROM " +:+ model +:+ " WHERE " +:+ where' +:+ " LIMIT $2".

(** Lines 86-123: [rows.Columns()] with its error checked, the row loop,
    [rows.Err()] and the encoding of [results] with [count], whose error is
    dropped: when the encoder fails the handler has written nothing and no
    status. *)
Definition respond (rows : Rows) : Response :=
  match Columns rows with
  | None => httpError "error fetching columns" StatusInternalServerError
  | Some colsNames =>
      match scanLoop colsNames (Fetched rows) [] with
      | None => httpError "error scanning row" StatusInternalServerError
      | Some results =>
          if IterErr rows then httpError "row iteration error" StatusInternalServerError
          else if encodes results then
            {| Status := StatusOK; Body := ResultsCount results (length results) |}
          else {| Status := StatusOK; Body := NoBody |}
      end
  end.

Definition MakeQueryHandler (db : DB) (allowed : gmap string (list string))
  (r : Request) : Outcome :=
  if negb (Method r =? "POST") then
    (httpError "method not allowed" StatusMethodNotAllowed, [])
  else
  match Decoded r with
  | None => (httpError "invalid JSON payload" StatusBadRequest, [])
  | Some req =>
  match allowed !! Model req with
  | None => (httpError "model not allowed" StatusBadRequest, [])
  | Some cols =>
  let fieldsToSearch := validateFields (Fields req) cols in
  if (length fieldsToSearch =? 0)%nat then
    (httpError "no valid fields to search" StatusBadRequest, [])
  else if (String.length (QueryText req) <? 1)%nat then
    (httpError "queryText must be non-empty" StatusBadRequest, [])
  else
  let req := clampMaxResults req in
  let query := queryOf (Model req) fieldsToSearch in
  let args := [AString (QueryText req); AInt (MaxResults req)] in
  let call := {| sqlText := query; sqlArgs := args |} in
  match db query args with
  | None => (httpError "database query error" StatusInternalServerError, [call])
  | Some rows => (respond rows, [call])
  end
  end
  end.

End Generic.

(** The allow-list that [cmd/server/main.go] hands to [MakeQueryHandler]. *)
Definition allowedMain : gmap string (list string) :=
  list_to_map
    [("items", ["id"; "name"; "category"; "price_ugx"; "available"]);
     ("users", ["id"; "email"; "role"]);
     ("orders", ["id"; "user_id"; "status"; "total_cost"])].

(** ** The model registry and the bearer-token middleware (registry.go) *)

Module Admin.

(** The payload of a registration; [Schema] holds the raw bytes of the
    JSON value. *)
Record RegisterModelRequest := { Name : string; Schema : string }.

(** A row of the table of models.  The fields [Name] and [Schema] of the
    source are [InfoName] and [InfoSchema] here. *)
Record ModelInfo := {
  ID : Z;
  InfoName : string;
  InfoSchema : string;
  Version : Z;
  CreatedAt : string
}.

(** What the admin handlers read of a request: the method, the
    [Authorization] header and the [name] parameter of the URL (both empty
    when absent), the outcome of decoding the body, and the claims the
    middleware stores in the context. *)
Record Request {Claims : Type} := {
  Method : string;
  Authorization : string;
  NameParam : string;
  Decoded : option RegisterModelRequest;
  JwtClaims : option Claims
}.
Arguments Request : clear implicits.

Inductive DbError :=
| ErrNoRows
| PqError (code : string)
| OtherError.

Inductive SqlArg :=
| SString (s : string)
| SBytes (b : string).

Record Call := { callSql : string; callArgs : list SqlArg }.

(** The rows of [ListModelsHandler]: one entry per [rows.Next()] that
    returns true, [None] when its [Scan] fails. *)
Record ModelRows := {
  FetchedModels : list (option ModelInfo);
  ModelsIterErr : bool
}.

(** The storage as the four handlers use it.  [scanInsert] and [scanModel]
    are [db.QueryRowContext(ctx, q, args...).Scan(dest...)] with three and
    five destinations, [queryModels] is [db.QueryContext] and [exec] is
    [db.ExecContext] followed by [RowsAffected], whose error the source
    drops. *)
Record Store := {
  scanInsert : string -> list SqlArg -> DbError + (Z * Z * string);
  scanModel : string -> list SqlArg -> DbError + ModelInfo;
  queryModels : string -> list SqlArg -> option ModelRows;
  exec : string -> list SqlArg -> DbError + Z
}.

Inductive Body :=
| Text (msg : string)
| Info (info : ModelInfo)
| Models (infos : option (list ModelInfo))
| Empty.

Record Response := { Status : nat; Content : Body }.

Definition httpError (msg : string) (code : nat) : Response :=
  {| Status := code; Content := Text msg |}.

Definition Outcome : Type := Response * list Call.

Definition LF : string := String (ascii_of_nat 10) EmptyString.

Definition insertSql : string :=
  LF +:+ "            INSERT INTO models (name, schema)" +:+
  LF +:+ "            VALUES ($1, $2)" +:+
  LF +:+ "            RETURNING id, version, created_at" +:+
  LF +:+ "        ".

Definition selectSql : string :=
  LF +:+ "            SELECT id, name, schema, version, created_at" +:+
  LF +:+ "              FROM models" +:+
  LF +:+ "             WHERE name = $1" +:+
  LF +:+ "        ".

Definition listSql : string :=
  LF +:+ "            SELECT id, name, schema, version, created_at" +:+
  LF +:+ "              FROM models" +:+
  LF +:+ "             ORDER BY name" +:+
  LF +:+ "        ".

Definition deleteSql : string := "DELETE FROM models WHERE name = $1".

(** The error is a [pq.Error] of the driver with the given code. *)
Definition isPqCode (e : DbError) (code : string) : bool :=
  match e with
  | PqError c => c =? code
  | _ => false
  end.

Section Handlers.
Context {Claims : Type}.
Variable db : Store.

Definition RegisterModelHandler (r : Request Claims) : Outcome :=
  if negb (Method r =? "POST") then (httpError "method not allowed" 405, [])
  else
  match Decoded r with
  | None => (httpError "invalid JSON payload" 400, [])
  | Some req =>
  if Name req =? "" then (httpError "name is required" 400, [])
  else if (String.length (Schema req) =? 0)%nat then
    (httpError "schema is required" 400, [])
  else
  let args := [SString (Name req); SBytes (Schema req)] in
  let call := {| callSql := insertSql; callArgs := args |} in
  match scanInsert db insertSql args with
  | inl err =>
      if isPqCode err "23505" then (httpError "model already exists" 409, [call])
      else (httpError "database insert error" 500, [call])
  | inr (id, version, createdAt) =>
      ({| Status := 201;
          Content := Info {| ID := id; InfoName := Name req;
                             InfoSchema := Schema req; Version := version;
                             CreatedAt := createdAt |} |}, [call])
  end
  end.

Definition ReadModelHandler (r : Request Claims) : Outcome :=
  if negb (Method r =? "GET") then (httpError "method not allowed" 405, [])
  else
  let name := NameParam r in
  if name =? "" then (httpError "query parameter 'name' is required" 400, [])
  else
  let call := {| callSql := selectSql; callArgs := [SString name] |} in
  match scanModel db selectSql [SString name] with
  | inl ErrNoRows => (httpError "model not found" 404, [call])
  | inl _ => (httpError "database query error" 500, [call])
  | inr info => ({| Status := 200; Content := Info info |}, [call])
  end.

(** The row loop of [ListModelsHandler].  [infos] is the slice [list] of
    the source, [None] while it is nil. *)
Fixpoint listLoop (fetched : list (option ModelInfo)) (infos : option (list ModelInfo))
  : option (option (list ModelInfo)) :=
  match fetched with
  | [] => Some infos
  | None :: _ => None
  | Some info :: rest =>
      listLoop rest (Some (match infos with
                           | Some l => l ++ [info]
                           | None => [info]
                           end))
  end.

Definition ListModelsHandler (r : Request Claims) : Outcome :=
  if negb (Method r =? "GET") then (httpError "method not allowed" 405, [])
  else
  let call := {| callSql := listSql; callArgs := [] |} in
  match queryModels db listSql [] with
  | None => (httpError "database query error" 500, [call])
  | Some rows =>
      match listLoop (FetchedModels rows) None with
      | None => (httpError "row scan error" 500, [call])
      | Some infos =>
          if ModelsIterErr rows then (httpError "row iteration error" 500, [call])
          else ({| Status := 200; Content := Models infos |}, [call])
      end
  end.

Definition DeleteModelHandler (r : Request Claims) : Outcome :=
  if negb (Method r =? "DELETE") then (httpError "method not allowed" 405, [])
  else
  let name := NameParam r in
  if name =? "" then (httpError "query parameter 'name' is required" 400, [])
  else
  let call := {| callSql := deleteSql; callArgs := [SString name] |} in
  match exec db deleteSql [SString name] with
  | inl err =>
      if isPqCode err "23503" then (httpError "cannot delete: model in use" 409, [call])
      else (httpError "database delete error" 500, [call])
  | inr count =>
      if (count =? 0)%Z then (httpError "model not found" 404, [call])
      else ({| Status := 204; Content := Empty |}, [call])
  end.

End Handlers.

(** [strings.HasPrefix] and [strings.TrimPrefix]. *)
Definition HasPrefix (s prefix : string) : bool := String.prefix prefix s.

Fixpoint dropBytes (n : nat) (s : string) : string :=
  match n, s with
  | S n', String _ s' => dropBytes n' s'
  | _, _ => s
  end.

Definition TrimPrefix (s prefix : string) : string :=
  if HasPrefix s prefix then dropBytes (String.length prefix) s else s.

(** The outcome of [jwt.Parse] with the key function of the middleware
    (HMAC methods only, the secret as key): an error, or a valid token with
    its claims. *)
Inductive Parsed {Claims : Type} :=
| Invalid (err : string)
| Valid (claims : Claims).
Arguments Parsed : clear implicits.

Section Middleware.
Context {Claims : Type}.

(** [r.WithContext(context.WithValue(r.Context(), ContextKeyClaims, claims))] *)
Definition withClaims (r : Request Claims) (claims : Claims) : Request Claims :=
  {| Method := Method r; Authorization := Authorization r;
     NameParam := NameParam r; Decoded := Decoded r;
     JwtClaims := Some claims |}.

(** [secret] is [os.Getenv("JWT_SECRET")], empty when the variable is
    unset. *)
Definition RequireJWT (secret : string) (parse : string -> string -> Parsed Claims)
  (next : Request Claims -> Outcome) (r : Request Claims) : Outcome :=
  let auth := Authorization r in
  if (auth =? "") || negb (HasPrefix auth "Bearer ") then
    (httpError "missing or invalid Authorization header" 401, [])
  else
  let tokenString := TrimPrefix auth "Bearer " in
  if secret =? "" then (httpError "server misconfiguration" 500, [])
  else
  match parse tokenString secret with
  | Invalid err => (httpError ("invalid token: " +:+ err) 401, [])
  | Valid claims => next (withClaims r claims)
  end.

End Middleware.

End Admin.

(** ** Reference definitions the properties are stated with *)

(** The pieces of [s] between separators, empty pieces included. *)
Fixpoint pieces (sep : ascii -> bool) (s : string) : list string :=
  match s with
  | EmptyString => [EmptyString]
  | String c s' =>
      if sep c then EmptyString :: pieces sep s'
      else match pieces sep s' with
           | w :: ws => String c w :: ws
           | [] => [String c EmptyString]
           end
  end.

Definition nonEmpty (s : string) : bool := negb (s =? "").

(** Splitting: the non-empty pieces. *)
Definition splitFields (sep : ascii -> bool) (s : string) : list string :=
  List.filter nonEmpty (pieces sep s).

(** A token is kept when it has at least two bytes and is no stop word. *)
Definition keepTerm (term : string) : bool :=
  (2 <=? String.length term)%nat && negb (index Ranking.stopWords term).

(** The separators as the specification words them: white space (the
    table [asciiSpace]), comma and semicolon. *)
Definition specSeparator (c : ascii) : bool :=
  asciiSpace c || (N_of_ascii c =? 44)%N || (N_of_ascii c =? 59)%N.

(** The tokens as the specification words them. *)
Definition specTokens {U : Unicode} (queryText : string) : list string :=
  List.filter keepTerm (splitFields specSeparator (ToLower (TrimSpace queryText))).

Definition CR : string := String (ascii_of_nat 13) EmptyString.

(** Two words on two lines, the line ended the way HTTP clients and
    Windows editors end it. *)
Definition crlfQuery : string := "laptop" +:+ CR +:+ Ranking.LF +:+ "stand".

(** One OR-group of the WHERE clause, its first placeholder being [$k]. *)
Definition groupAt (k : nat) : string :=
  "(name ILIKE $" +:+ itoa k +:+ " OR category ILIKE $" +:+ itoa (S k) +:+ ")".

(** The conjunction of [t] OR-groups over the placeholders [$1 .. $2t]. *)
Definition whereTemplate (t : nat) : string :=
  Join (map (fun i => groupAt (2 * i + 1)) (seq 0 t)) " AND ".

(** The statement for a model, a field list and a number of terms; no
    query text and no limit enters it. *)
Definition sqlTemplate (model : string) (fields : list string) (t : nat) : string :=
  Ranking.queryStrOf (Join fields ", ") model (whereTemplate t)
                     (Ranking.orderClauseAt (2 * t + 1)) (2 * t + 3).

(** The two bound patterns of each term, in the order of the terms. *)
Definition likeArgs (terms : list string) : list Arg :=
  flat_map (fun term => [AString ("%" +:+ term +:+ "%");
                         AString ("%" +:+ term +:+ "%")]) terms.

(** The columns the allow-list grants to a model; none for a model it
    does not know. *)
Definition allowedColumns (allowed : gmap string (list string)) (model : string)
  : list string :=
  default [] (allowed !! model).

(** The one call a handler run made. *)
Definition callOf (q : Ranking.Query) : DbCall :=
  {| sqlText := Ranking.queryStr q; sqlArgs := Ranking.args q |}.

(** What the ranking handler does once the checks are passed: one call,
    and the response made from its answer. *)
Definition runQuery {U : Unicode} (db : DB) (req : Ranking.QueryRequest) : Outcome :=
  let q := Ranking.buildQuery (Ranking.clampMaxResults req) in
  (match db (Ranking.queryStr q) (Ranking.args q) with
   | None => httpError "database query error" StatusInternalServerError
   | Some rows => Ranking.respond rows
   end, [callOf q]).

(** The message of the rejection for a field outside the allow-list. *)
Definition fieldNotAllowed (f model : string) : Response :=
  httpError ("field '" +:+ f +:+ "' not allowed for model '" +:+ model +:+ "'")
            StatusBadRequest.

(** The request passes every check that precedes query construction. *)
Definition reachesQuery (allowed : gmap string (list string))
  (r : Ranking.Request) (req : Ranking.QueryRequest) : Prop :=
  Ranking.Method r = "POST" /\
  Ranking.Decoded r = Some req /\
  Ranking.Model req <> "" /\
  Ranking.Fields req <> [] /\
  Ranking.QueryText req <> "" /\
  exists cols, allowed !! Ranking.Model req = Some cols /\
               Forall (fun f => In f cols) (Ranking.Fields req).

(** *** Positional placeholders of a statement *)

Definition isDigit (c : ascii) : bool :=
  ((48 <=? N_of_ascii c) && (N_of_ascii c <=? 57))%N.

Definition isDollar (c : ascii) : bool := (N_of_ascii c =? 36)%N.

Definition digitValue (c : ascii) : nat := N.to_nat (N_of_ascii c) - 48.

(** The value of the longest run of digits that starts [s], read after
    the digits that make [acc]. *)
Fixpoint readDigits (acc : nat) (s : string) : nat :=
  match s with
  | EmptyString => acc
  | String c s' =>
      if isDigit c then readDigits (digitValue c + 10 * acc) s' else acc
  end.

Definition startsWithDigit (s : string) : bool :=
  match s with
  | EmptyString => false
  | String c _ => isDigit c
  end.

Definition leadingNumber (s : string) : option nat :=
  if startsWithDigit s then Some (readDigits 0 s) else None.

(** The numbers [n] of the placeholders [$n] of a statement, in the order
    of the text. *)
Fixpoint placeholders (s : string) : list nat :=
  match s with
  | EmptyString => []
  | String c s' =>
      if isDollar c then
        match leadingNumber s' with
        | Some n => n :: placeholders s'
        | None => placeholders s'
        end
      else placeholders s'
  end.

Definition noDollar (s : string) : bool := allBytes (fun c => negb (isDollar c)) s.

(** No table name and no column name of the allow-list holds a [$]. *)
Definition cleanIdentifiers (allowed : gmap string (list string)) : Prop :=
  forall model cols, allowed !! model = Some cols ->
    noDollar model = true /\ Forall (fun f => noDollar f = true) cols.

(** The limit the specification gives for a supplied [maxResults]. *)
Definition effectiveMaxResults (m : Z) : Z :=
  if decide (m <= 0 \/ 100 < m)%Z then 10%Z else m.



Definition allScan (ndest : nat) (fetched : list (option (list Value))) : Prop :=
  Forall (fun row => exists vals, row = Some vals /\ length vals = ndest) fetched.

(** *** Sample requests and storages *)

Definition post (req : Ranking.QueryRequest) : Ranking.Request :=
  {| Ranking.Method := "POST"; Ranking.Decoded := Some req |}.

Definition itemsRequest (fields : list string) (queryText : string) (maxResults : Z)
  : Ranking.QueryRequest :=
  {| Ranking.Model := "items"; Ranking.Fields := fields;
     Ranking.QueryText := queryText; Ranking.MaxResults := maxResults;
     Ranking.Fuzzy := false |}.

Definition genericPost (fields : list string) (queryText : string) (maxResults : Z)
  : Generic.Request :=
  {| Generic.Method := "POST";
     Generic.Decoded :=
       Some {| Generic.Model := "items"; Generic.QueryText := queryText;
               Generic.Fields := fields; Generic.MaxResults := maxResults |} |}.

Definition twoRows : Rows :=
  {| Columns := Some ["id"; "name"];
     Fetched := [Some [VInt64 1; VString "Laptop Stand"];
                 Some [VInt64 2; VString "USB Stand"]];
     IterErr := false |}.

Definition noRows : Rows :=
  {| Columns := Some ["id"; "name"]; Fetched := []; IterErr := false |}.

Definition dbOf (rows : Rows) : DB := fun _ _ => Some rows.

(** A query with capitals, stop words and the three kinds of separator. *)
Definition shoppingQuery : string := "  I want a Laptop, Stand;usb  ".

(** Two requests for the same model and fields, with two terms each, that
    differ in the query text and in the limit. *)
Definition laptopRequest : Ranking.QueryRequest :=
  itemsRequest ["id"; "name"] "Laptop stand" 0.

Definition cableRequest : Ranking.QueryRequest :=
  itemsRequest ["id"; "name"] "usb; cable" 50.

Definition laptopCall : DbCall :=
  callOf (@Ranking.buildQuery asciiOnly (Ranking.clampMaxResults laptopRequest)).

Definition cableCall : DbCall :=
  callOf (@Ranking.buildQuery asciiOnly (Ranking.clampMaxResults cableRequest)).

(** A cursor whose second row does not scan, and one whose columns
    cannot be read. *)
Definition brokenRows : Rows :=
  {| Columns := Some ["id"; "name"];
     Fetched := [Some [VInt64 1; VString "Laptop Stand"]; None];
     IterErr := false |}.

Definition noColumns : Rows :=
  {| Columns := None; Fetched := []; IterErr := false |}.








(** A registry storage that holds no model and refuses nothing. *)
Definition emptyStore : Admin.Store :=
  {| Admin.scanInsert := fun _ _ => inr (1%Z, 1%Z, "2024-01-01T00:00:00Z");
     Admin.scanModel := fun _ _ => inl Admin.ErrNoRows;
     Admin.queryModels :=
       fun _ _ => Some {| Admin.FetchedModels := []; Admin.ModelsIterErr := false |};
     Admin.exec := fun _ _ => inr 0%Z |}.

Definition listRequest : Admin.Request unit :=
  {| Admin.Method := "GET"; Admin.Authorization := "Bearer abc";
     Admin.NameParam := ""; Admin.Decoded := None; Admin.JwtClaims := None |}.

Definition mixedCall : DbCall :=
  {| sqlText := "SELECT * FROM items WHERE name ILIKE '%' || $1 || '%' OR category ILIKE '%' || $1 || '%' LIMIT $2";
     sqlArgs := [AString "Laptop"; AInt 10] |}.

(** A parser that accepts the token [abc] alone, and a registration
    that carries it. *)
Definition acceptAbc (token secret : string) : Admin.Parsed unit :=
  if token =? "abc" then Admin.Valid tt else Admin.Invalid "token is malformed".

Definition registerRequest : Admin.Request unit :=
  {| Admin.Method := "POST"; Admin.Authorization := "Bearer abc";
     Admin.NameParam := "";
     Admin.Decoded := Some {| Admin.Name := "items"; Admin.Schema := "{}" |};
     Admin.JwtClaims := None |}.

(** * Properties *)

(** ** Strings *)

Lemma append_cons (c : ascii) (a b : string) :
  String c a +:+ b = String c (a +:+ b).
Proof. reflexivity. Qed.

Lemma append_nil_l (s : string) : "" +:+ s = s.
Proof. reflexivity. Qed.

Lemma append_nil_r (s : string) : s +:+ "" = s.
Proof.
  induction s as [|c s IH]; [reflexivity|]. now rewrite append_cons, IH.
Qed.

Lemma append_assoc (a b c : string) : (a +:+ b) +:+ c = a +:+ (b +:+ c).
Proof.
  induction a as [|x a IH]; [reflexivity|]. now rewrite !append_cons, IH.
Qed.

Lemma length_append (a b : string) :
  String.length (a +:+ b) = String.length a + String.length b.
Proof.
  induction a as [|x a IH]; [reflexivity|]. rewrite append_cons. simpl. now rewrite IH.
Qed.

Lemma allBytes_append p (a b : string) :
  allBytes p (a +:+ b) = allBytes p a && allBytes p b.
Proof.
  induction a as [|x a IH]; [reflexivity|].
  rewrite append_cons. simpl. rewrite IH. now rewrite andb_assoc.
Qed.

Lemma nonEmpty_append_cons (w : string) (c : ascii) (p : string) :
  nonEmpty (w +:+ String c p) = true.
Proof. destruct w; reflexivity. Qed.

(** ** [strings.FieldsFunc] computes the non-empty pieces *)

Lemma pieces_not_nil sep s : pieces sep s <> [].
Proof.
  destruct s as [|c s]; simpl; [discriminate|].
  destruct (sep c); [discriminate|]. destruct (pieces sep s); discriminate.
Qed.

(** With a field in progress, the loop glues it to the first piece. *)
Lemma fieldsLoop_pieces sep s :
  fieldsLoop sep None s = List.filter nonEmpty (pieces sep s) /\
  forall w, w <> "" ->
    fieldsLoop sep (Some w) s =
    match pieces sep s with
    | p :: ps => (w +:+ p) :: List.filter nonEmpty ps
    | [] => [w]
    end.
Proof.
  induction s as [|c s [IHn IHs]]; simpl.
  - split; [reflexivity|]. intros w _. now rewrite append_nil_r.
  - destruct (sep c) eqn:Hc.
    + split.
      * simpl. exact IHn.
      * intros w Hw. simpl. now rewrite append_nil_r, IHn.
    + assert (Hone : String c "" <> "") by discriminate.
      split.
      * rewrite (IHs _ Hone).
        destruct (pieces sep s) as [|p ps] eqn:Hp; [now apply pieces_not_nil in Hp|].
        reflexivity.
      * intros w Hw.
        assert (Hwc : w +:+ String c "" <> "") by (destruct w; discriminate).
        rewrite (IHs _ Hwc).
        destruct (pieces sep s) as [|p ps] eqn:Hp; [now apply pieces_not_nil in Hp|].
        now rewrite append_assoc.
Qed.

Lemma FieldsFunc_splitFields (s : string) sep :
  FieldsFunc s sep = splitFields sep s.
Proof. apply fieldsLoop_pieces. Qed.

Lemma pieces_allBytes p sep (s : string) :
  allBytes p s = true -> Forall (fun w => allBytes p w = true) (pieces sep s).
Proof.
  induction s as [|c s IH]; simpl; intros H.
  - repeat constructor.
  - apply andb_true_iff in H as [Hc Hs]. specialize (IH Hs).
    destruct (sep c).
    + constructor; [reflexivity | exact IH].
    + destruct (pieces sep s) as [|w ws]; inversion IH; subst;
        constructor; simpl; try rewrite Hc; auto.
Qed.

Lemma splitFields_allBytes p sep (s : string) :
  allBytes p s = true -> Forall (fun w => allBytes p w = true) (splitFields sep s).
Proof.
  intros H. unfold splitFields. apply List.Forall_forall. intros w Hw.
  apply filter_In in Hw as [Hw _].
  eapply List.Forall_forall in Hw; [exact Hw | now apply pieces_allBytes].
Qed.

(** ** The tokenizer *)

Section Tokenizer.
Context {U : Unicode}.

Lemma ToLower_noUpper (s : string) : noUpper (ToLower s) = true.
Proof.
  unfold ToLower. destruct (isASCII s).
  - apply mapBytes_lower_noUpper.
  - apply mapLower_noUpper.
Qed.

Lemma filterStep_fold (l acc : list string) :
  fold_left Ranking.filterStep l acc = acc ++ List.filter keepTerm l.
Proof.
  revert acc. induction l as [|t l IH]; intros acc; simpl.
  - now rewrite app_nil_r.
  - rewrite IH. unfold Ranking.filterStep, keepTerm.
    destruct (String.length t <? 2)%nat eqn:Hlen.
    + apply Nat.ltb_lt in Hlen.
      assert (Hle : (2 <=? String.length t)%nat = false) by (apply Nat.leb_gt; lia).
      now rewrite Hle.
    + apply Nat.ltb_ge in Hlen.
      assert (Hle : (2 <=? String.length t)%nat = true) by (apply Nat.leb_le; lia).
      rewrite Hle, andb_true_l.
      destruct (index Ranking.stopWords t); cbn [negb]; [reflexivity|].
      now rewrite <- app_assoc.
Qed.

(** The loop over [rawTerms] keeps the terms of length two or more that
    are no stop words, in their order. *)
Lemma filteredTerms_filter (queryText : string) :
  Ranking.filteredTerms queryText =
  List.filter keepTerm
    (splitFields Ranking.isSeparator (ToLower (TrimSpace queryText))).
Proof.
  unfold Ranking.filteredTerms, Ranking.rawTerms, Ranking.cleanedText.
  now rewrite filterStep_fold, FieldsFunc_splitFields.
Qed.

Lemma prepareSearchTerms_cases (queryText : string) :
  (Ranking.filteredTerms queryText = [] /\
   Ranking.prepareSearchTerms queryText = [ToLower (TrimSpace queryText)]) \/
  (Ranking.filteredTerms queryText <> [] /\
   Ranking.prepareSearchTerms queryText = Ranking.filteredTerms queryText).
Proof.
  unfold Ranking.prepareSearchTerms.
  destruct (Ranking.filteredTerms queryText) as [|t l]; simpl.
  - left. split; reflexivity.
  - right. split; [discriminate | reflexivity].
Qed.

Lemma prepareSearchTerms_length_pos (queryText : string) :
  0 < length (Ranking.prepareSearchTerms queryText).
Proof.
  destruct (prepareSearchTerms_cases queryText) as [[_ ->] | [Hne ->]]; simpl; [lia|].
  destruct (Ranking.filteredTerms queryText); [congruence | simpl; lia].
Qed.

(** C3. For every input, [prepareSearchTerms] returns at least one term;
    when lower-casing, trimming, splitting and filtering leave no token, the
    result is the one-element list holding the whole lower-cased, trimmed
    text.  The empty input gives the empty term, and an input made of stop
    words only comes back whole. *)
Theorem prepareSearchTerms_never_empty (queryText : string) :
  Ranking.prepareSearchTerms queryText <> [] /\
  (List.filter keepTerm
     (splitFields Ranking.isSeparator (ToLower (TrimSpace queryText))) = [] ->
   Ranking.prepareSearchTerms queryText = [ToLower (TrimSpace queryText)]) /\
  Ranking.prepareSearchTerms "" = [""] /\
  Ranking.prepareSearchTerms "the a of" = ["the a of"].
Proof.
  split; [|split; [|split]].
  - pose proof (prepareSearchTerms_length_pos queryText) as H.
    intros E. rewrite E in H. simpl in H. lia.
  - rewrite <- filteredTerms_filter. intros E.
    destruct (prepareSearchTerms_cases queryText) as [[_ H] | [Hne _]];
      [exact H | congruence].
  - vm_compute. reflexivity.
  - vm_compute. reflexivity.
Qed.

(** C6 (amended). When filtering leaves at least one token,
    [prepareSearchTerms] returns the tokens obtained by lower-casing and
    trimming the input, splitting on space, tab, newline, comma and
    semicolon, and dropping the tokens of fewer than two bytes and the stop
    words; each returned term has no ASCII capital, at least two bytes, and
    is no stop word. *)
Theorem prepareSearchTerms_tokens (queryText : string) :
  List.filter keepTerm
    (splitFields Ranking.isSeparator (ToLower (TrimSpace queryText))) <> [] ->
  Ranking.prepareSearchTerms queryText =
    List.filter keepTerm
      (splitFields Ranking.isSeparator (ToLower (TrimSpace queryText))) /\
  Forall (fun term =>
            noUpper term = true /\
            2 <= String.length term /\
            index Ranking.stopWords term = false)
         (Ranking.prepareSearchTerms queryText).
Proof.
  intros Hne. rewrite <- filteredTerms_filter in Hne.
  destruct (prepareSearchTerms_cases queryText) as [[E _] | [_ E]]; [congruence|].
  rewrite E, filteredTerms_filter. split; [reflexivity|].
  apply List.Forall_forall. intros t Ht. apply filter_In in Ht as [Hin Hkeep].
  unfold keepTerm in Hkeep. apply andb_true_iff in Hkeep as [Hlen Hstop].
  repeat split.
  - pose proof (splitFields_allBytes (fun c => negb (isUpperByte c))
                  Ranking.isSeparator _ (ToLower_noUpper (TrimSpace queryText))) as HF.
    eapply List.Forall_forall in HF; [exact HF | exact Hin].
  - now apply Nat.leb_le.
  - now apply negb_true_iff.
Qed.

End Tokenizer.

(** ** The allow-list check *)

Lemma index_insert_true (m : gmap string bool) (f g : string) :
  index (<[f := true]> m) g = true <-> f = g \/ index m g = true.
Proof.
  unfold index. destruct (decide (f = g)) as [->|Hne].
  - rewrite lookup_insert_eq. simpl. tauto.
  - rewrite lookup_insert_ne by exact Hne. tauto.
Qed.

Lemma index_fold_insert (l : list string) (m : gmap string bool) (g : string) :
  index (fold_left (fun m f => <[f := true]> m) l m) g = true <->
  In g l \/ index m g = true.
Proof.
  revert m. induction l as [|f l IH]; intros m; simpl.
  - tauto.
  - rewrite IH, index_insert_true. tauto.
Qed.

Lemma index_makeAllowedSet (allowedFields : list string) (f : string) :
  index (Ranking.makeAllowedSet allowedFields) f = true <-> In f allowedFields.
Proof.
  unfold Ranking.makeAllowedSet. rewrite index_fold_insert.
  assert (E : index ∅ f = false) by (unfold index; now rewrite lookup_empty).
  rewrite E. split; [intros [H|H]|]; auto. discriminate.
Qed.

Lemma firstNotAllowed_None (cols fields : list string) :
  Ranking.firstNotAllowed (Ranking.makeAllowedSet cols) fields = None <->
  Forall (fun f => In f cols) fields.
Proof.
  unfold Ranking.firstNotAllowed. induction fields as [|f fields IH]; simpl.
  - split; [constructor | reflexivity].
  - destruct (index (Ranking.makeAllowedSet cols) f) eqn:Hf; simpl.
    + apply index_makeAllowedSet in Hf. rewrite IH. split.
      * intros H. now constructor.
      * intros H. now inversion H.
    + split; [discriminate|]. intros H. inversion H as [|? ? Hin _]; subst.
      apply index_makeAllowedSet in Hin. congruence.
Qed.

(** The field the loop stops at is the first one outside the columns. *)
Lemma firstNotAllowed_Some (cols fields : list string) (f : string) :
  Ranking.firstNotAllowed (Ranking.makeAllowedSet cols) fields = Some f <->
  exists before after,
    fields = before ++ f :: after /\
    Forall (fun g => In g cols) before /\ ~ In f cols.
Proof.
  unfold Ranking.firstNotAllowed. induction fields as [|g fields IH]; simpl.
  - split; [discriminate|]. intros (b & a & E & _). destruct b; discriminate.
  - destruct (index (Ranking.makeAllowedSet cols) g) eqn:Hg; simpl.
    + apply index_makeAllowedSet in Hg. rewrite IH. split.
      * intros (b & a & -> & Hb & Hf). exists (g :: b), a. repeat split; auto.
      * intros (b & a & E & Hb & Hf). destruct b as [|g' b]; simpl in E.
        -- injection E as -> _. contradiction.
        -- injection E as -> ->. inversion Hb; subst. exists b, a. auto.
    + assert (Hng : ~ In g cols).
      { intros Hin. apply index_makeAllowedSet in Hin. congruence. }
      split.
      * intros [= ->]. exists [], fields. repeat split; auto.
      * intros (b & a & E & Hb & Hf). destruct b as [|g' b]; simpl in E.
        -- now injection E as ->.
        -- injection E as -> ->. inversion Hb; subst. contradiction.
Qed.

Lemma firstNotAllowed_of_offender (cols fields : list string) (f : string) :
  In f fields -> ~ In f cols ->
  exists f0, Ranking.firstNotAllowed (Ranking.makeAllowedSet cols) fields = Some f0.
Proof.
  intros Hin Hout.
  destruct (Ranking.firstNotAllowed (Ranking.makeAllowedSet cols) fields) as [f0|] eqn:E;
    [now exists f0|].
  apply firstNotAllowed_None in E.
  eapply List.Forall_forall in E; [|exact Hin]. contradiction.
Qed.

(** ** The ranking handler: validation *)

Lemma clampMaxResults_same (req : Ranking.QueryRequest) :
  Ranking.Model (Ranking.clampMaxResults req) = Ranking.Model req /\
  Ranking.Fields (Ranking.clampMaxResults req) = Ranking.Fields req /\
  Ranking.QueryText (Ranking.clampMaxResults req) = Ranking.QueryText req.
Proof.
  unfold Ranking.clampMaxResults.
  destruct ((Ranking.MaxResults req <=? 0)%Z || (100 <? Ranking.MaxResults req)%Z);
    repeat split.
Qed.

Lemma clampMaxResults_value (req : Ranking.QueryRequest) :
  Ranking.MaxResults (Ranking.clampMaxResults req) =
  if decide (Ranking.MaxResults req <= 0 \/ 100 < Ranking.MaxResults req)%Z
  then 10%Z else Ranking.MaxResults req.
Proof.
  unfold Ranking.clampMaxResults.
  destruct (Ranking.MaxResults req <=? 0)%Z eqn:H1;
    destruct (100 <? Ranking.MaxResults req)%Z eqn:H2; simpl;
    case_decide; try reflexivity; lia.
Qed.

(** The goal is the left case of [handler_cases]: a rejection with a
    4xx status and no call. *)
Ltac rejected :=
  left; do 2 eexists; split; [reflexivity | cbv; lia].

Section RankingHandler.
Context {U : Unicode}.
Variable db : DB.
Variable allowed : gmap string (list string).

Lemma handler_reaches (r : Ranking.Request) (req : Ranking.QueryRequest) :
  reachesQuery allowed r req ->
  Ranking.MakeQueryHandler db allowed r = runQuery db req.
Proof.
  intros (Hm & Hd & Hmodel & Hfields & Htext & cols & Hcols & Hall).
  unfold Ranking.MakeQueryHandler, runQuery.
  rewrite Hm, Hd. simpl.
  apply String.eqb_neq in Hmodel. rewrite Hmodel.
  destruct (Ranking.Fields req) as [|f fs] eqn:Hf; [congruence|]. simpl.
  apply String.eqb_neq in Htext. rewrite Htext.
  destruct (clampMaxResults_same req) as (-> & -> & _).
  rewrite Hcols, Hf.
  apply firstNotAllowed_None in Hall. rewrite Hall.
  destruct (db _ _); reflexivity.
Qed.

(** Every way out of the handler: one of the rejections, none of which
    touches the storage, or the query. *)
Lemma handler_cases (r : Ranking.Request) :
  (exists msg code,
     Ranking.MakeQueryHandler db allowed r = (httpError msg code, []) /\
     400 <= code < 500) \/
  (exists req, reachesQuery allowed r req).
Proof.
  unfold Ranking.MakeQueryHandler, reachesQuery.
  destruct (String.eqb_spec (Ranking.Method r) "POST") as [Hm|Hm]; simpl;
    [|rejected].
  destruct (Ranking.Decoded r) as [req|] eqn:Hd; [|rejected].
  destruct (String.eqb_spec (Ranking.Model req) "") as [Hmodel|Hmodel];
    [rejected|].
  destruct (Ranking.Fields req) as [|f fs] eqn:Hf; simpl; [rejected|].
  destruct (String.eqb_spec (Ranking.QueryText req) "") as [Htext|Htext];
    [rejected|].
  destruct (clampMaxResults_same req) as (-> & -> & _).
  destruct (allowed !! Ranking.Model req) as [cols|] eqn:Hcols; [|rejected].
  rewrite Hf.
  destruct (Ranking.firstNotAllowed (Ranking.makeAllowedSet cols) (f :: fs))
    as [f0|] eqn:Hfirst; [rejected|].
  right. exists req. repeat split; auto; try congruence.
  exists cols. split; [exact Hcols|]. rewrite Hf. now apply firstNotAllowed_None.
Qed.

Lemma reachesQuery_unique (r : Ranking.Request) (req1 req2 : Ranking.QueryRequest) :
  reachesQuery allowed r req1 -> Ranking.Decoded r = Some req2 -> req1 = req2.
Proof. intros (_ & Hd & _) H. congruence. Qed.

(** A run that made a call passed every check, and the call is the one
    query construction built. *)
Lemma handler_call_inv (r : Ranking.Request) (req : Ranking.QueryRequest) (c : DbCall) :
  Ranking.Decoded r = Some req ->
  snd (Ranking.MakeQueryHandler db allowed r) = [c] ->
  reachesQuery allowed r req /\
  c = callOf (Ranking.buildQuery (Ranking.clampMaxResults req)) /\
  Ranking.MakeQueryHandler db allowed r = runQuery db req.
Proof.
  intros Hd Hc.
  destruct (handler_cases r) as [(msg & code & E & _) | (req' & Hreach)].
  - rewrite E in Hc. discriminate.
  - pose proof (reachesQuery_unique _ _ _ Hreach Hd) as ->.
    pose proof (handler_reaches _ _ Hreach) as E. rewrite E in Hc.
    unfold runQuery in Hc. simpl in Hc. injection Hc as <-.
    repeat split; try apply Hreach; auto.
Qed.

(** C1 (amended). A decoded request with a field outside the columns
    allow-listed for its model is rejected with a 4xx error and makes no
    call to the storage.  When it is a POST with a non-empty model and query
    text and the model is allow-listed, the rejection is the 400 response
    naming the first such field of the request. *)
Theorem invalid_field_rejected (r : Ranking.Request) (req : Ranking.QueryRequest)
  (f : string) :
  Ranking.Decoded r = Some req ->
  In f (Ranking.Fields req) ->
  ~ In f (allowedColumns allowed (Ranking.Model req)) ->
  snd (Ranking.MakeQueryHandler db allowed r) = [] /\
  (exists msg code,
     fst (Ranking.MakeQueryHandler db allowed r) = httpError msg code /\
     400 <= code < 500) /\
  (Ranking.Method r = "POST" ->
   Ranking.Model req <> "" ->
   Ranking.QueryText req <> "" ->
   allowed !! Ranking.Model req <> None ->
   exists before f0 after,
     Ranking.Fields req = before ++ f0 :: after /\
     Forall (fun g => In g (allowedColumns allowed (Ranking.Model req))) before /\
     ~ In f0 (allowedColumns allowed (Ranking.Model req)) /\
     fst (Ranking.MakeQueryHandler db allowed r) =
       fieldNotAllowed f0 (Ranking.Model req)).
Proof.
  intros Hd Hin Hout.
  assert (Hrej : exists msg code,
             Ranking.MakeQueryHandler db allowed r = (httpError msg code, []) /\
             400 <= code < 500).
  { destruct (handler_cases r) as [H | (req' & Hreach)]; [exact H|].
    pose proof (reachesQuery_unique _ _ _ Hreach Hd) as ->.
    destruct Hreach as (_ & _ & _ & _ & _ & cols & Hcols & Hall).
    unfold allowedColumns in Hout. rewrite Hcols in Hout. simpl in Hout.
    eapply List.Forall_forall in Hall; [|exact Hin]. contradiction. }
  destruct Hrej as (msg & code & E & Hcode).
  split; [now rewrite E|]. split; [exists msg, code; now rewrite E|].
  intros Hm Hmodel Htext Hknown. clear E.
  destruct (allowed !! Ranking.Model req) as [cols|] eqn:Hcols; [|congruence].
  unfold allowedColumns in *. rewrite Hcols in *. simpl in *.
  destruct (firstNotAllowed_of_offender cols _ f Hin Hout) as (f0 & Hfirst).
  pose proof Hfirst as Hsplit.
  apply firstNotAllowed_Some in Hsplit as (before & after & Ef & Hb & Hf0).
  exists before, f0, after. repeat split; auto.
  unfold Ranking.MakeQueryHandler. rewrite Hm, Hd. simpl.
  apply String.eqb_neq in Hmodel. rewrite Hmodel.
  destruct (Ranking.Fields req) as [|g gs] eqn:Hf; [destruct before; discriminate|].
  simpl. apply String.eqb_neq in Htext. rewrite Htext.
  destruct (clampMaxResults_same req) as (-> & -> & _).
  rewrite Hcols, Hf, Hfirst. reflexivity.
Qed.

End RankingHandler.

(** ** Query construction in closed form *)

Lemma termStep_closed (wc : list string) (a : list Arg) (k : nat) (t : string) :
  Ranking.termStep (wc, a, k) t =
  (wc ++ [groupAt k],
   a ++ [AString ("%" +:+ t +:+ "%"); AString ("%" +:+ t +:+ "%")],
   S (S k)).
Proof.
  unfold Ranking.termStep, Ranking.searchCols, Ranking.colStep. simpl.
  rewrite <- app_assoc. simpl. unfold groupAt.
  rewrite !append_assoc. reflexivity.
Qed.

Lemma whereLoop_from (terms : list string) (wc : list string) (a : list Arg) (k : nat) :
  fold_left Ranking.termStep terms (wc, a, k) =
  (wc ++ map (fun i => groupAt (k + 2 * i)) (seq 0 (length terms)),
   a ++ likeArgs terms,
   k + 2 * length terms).
Proof.
  revert wc a k. induction terms as [|t terms IH]; intros wc a k.
  - simpl. now rewrite !app_nil_r, Nat.add_0_r.
  - cbn [fold_left length]. rewrite termStep_closed, IH.
    rewrite <- !app_assoc. cbn [seq map app likeArgs flat_map].
    rewrite <- seq_shift, map_map.
    rewrite (map_ext (fun x => groupAt (k + 2 * S x))
                     (fun i => groupAt (S (S k) + 2 * i)))
      by (intros i; f_equal; lia).
    replace (k + 2 * 0) with k by lia.
    replace (k + 2 * S (length terms)) with (S (S k) + 2 * length terms) by lia.
    reflexivity.
Qed.

Lemma whereLoop_closed (terms : list string) :
  Ranking.whereLoop terms =
  (map (fun i => groupAt (2 * i + 1)) (seq 0 (length terms)),
   likeArgs terms,
   2 * length terms + 1).
Proof.
  unfold Ranking.whereLoop. rewrite whereLoop_from. simpl app.
  rewrite (map_ext (fun i => groupAt (1 + 2 * i)) (fun i => groupAt (2 * i + 1)))
    by (intros i; f_equal; lia).
  replace (1 + 2 * length terms) with (2 * length terms + 1) by lia.
  reflexivity.
Qed.

Lemma likeArgs_length (terms : list string) :
  length (likeArgs terms) = 2 * length terms.
Proof.
  induction terms as [|t terms IH]; simpl; [reflexivity|]. rewrite IH. lia.
Qed.

Lemma likeArgs_nth (terms : list string) (i : nat) (term : string) :
  nth_error terms i = Some term ->
  nth_error (likeArgs terms) (2 * i) = Some (AString ("%" +:+ term +:+ "%")) /\
  nth_error (likeArgs terms) (2 * i + 1) = Some (AString ("%" +:+ term +:+ "%")).
Proof.
  revert i. induction terms as [|t terms IH]; intros i H.
  - destruct i; discriminate.
  - destruct i as [|i]; simpl in H.
    + injection H as ->. split; reflexivity.
    + replace (2 * S i) with (S (S (2 * i))) by lia.
      replace (S (S (2 * i)) + 1) with (S (S (2 * i + 1))) by lia.
      simpl likeArgs. simpl nth_error. now apply IH.
Qed.

Section QueryConstruction.
Context {U : Unicode}.

(** The statement, its arguments and the parts of lines 202-254, for a
    request with [t] search terms. *)
Lemma buildQuery_closed (req : Ranking.QueryRequest) :
  let q := Ranking.buildQuery req in
  let t := length (Ranking.prepareSearchTerms (Ranking.QueryText req)) in
  Ranking.terms q = Ranking.prepareSearchTerms (Ranking.QueryText req) /\
  Ranking.selectCols q = Join (Ranking.Fields req) ", " /\
  Ranking.whereClauses q = map (fun i => groupAt (2 * i + 1)) (seq 0 t) /\
  Ranking.whereClause q = whereTemplate t /\
  Ranking.exactPattern q = "%" +:+ ToLower (Ranking.QueryText req) +:+ "%" /\
  Ranking.orderClause q = Ranking.orderClauseAt (2 * t + 1) /\
  Ranking.limitIdx q = 2 * t + 3 /\
  Ranking.queryStr q = sqlTemplate (Ranking.Model req) (Ranking.Fields req) t /\
  Ranking.args q =
    likeArgs (Ranking.prepareSearchTerms (Ranking.QueryText req)) ++
    [AString (Ranking.exactPattern q); AString (Ranking.exactPattern q);
     AInt (Ranking.MaxResults req)].
Proof.
  intros q t. subst q. unfold Ranking.buildQuery.
  rewrite whereLoop_closed. fold t. cbn [Ranking.terms Ranking.selectCols
    Ranking.whereClauses Ranking.whereClause Ranking.exactPattern
    Ranking.orderClause Ranking.limitIdx Ranking.queryStr Ranking.args].
  assert (Ht : 0 < t) by apply prepareSearchTerms_length_pos.
  assert (Hw : Ranking.pickWhereClause
                 (map (fun i => groupAt (2 * i + 1)) (seq 0 t)) = whereTemplate t).
  { unfold Ranking.pickWhereClause. rewrite length_map, length_seq.
    destruct (Nat.ltb_spec 0 t); [reflexivity | lia]. }
  rewrite Hw. unfold sqlTemplate.
  replace (2 * t + 1 + 2) with (2 * t + 3) by lia.
  repeat split. now rewrite <- app_assoc.
Qed.

End QueryConstruction.

(** ** Placeholders of the generated statement *)

Lemma placeholders_clean_prefix (a b : string) :
  noDollar a = true -> placeholders (a +:+ b) = placeholders b.
Proof.
  induction a as [|c a IH]; intros H; [reflexivity|].
  unfold noDollar in H. simpl in H. apply andb_true_iff in H as [Hc Ha].
  rewrite append_cons. simpl. apply negb_true_iff in Hc. rewrite Hc.
  now apply IH.
Qed.

Lemma readDigits_append (a b : string) (acc : nat) :
  startsWithDigit b = false -> readDigits acc (a +:+ b) = readDigits acc a.
Proof.
  intros Hb. revert acc. induction a as [|c a IH]; intros acc.
  - rewrite append_nil_l. destruct b as [|c b]; [reflexivity|].
    simpl in *. now rewrite Hb.
  - rewrite append_cons. simpl. destruct (isDigit c); [apply IH | reflexivity].
Qed.

Lemma leadingNumber_append (a b : string) :
  startsWithDigit b = false -> leadingNumber (a +:+ b) = leadingNumber a.
Proof.
  intros Hb. unfold leadingNumber. destruct a as [|c a].
  - rewrite append_nil_l. now rewrite Hb.
  - rewrite append_cons. cbn [startsWithDigit].
    destruct (isDigit c); [|reflexivity].
    now rewrite <- append_cons, readDigits_append.
Qed.

(** Text that does not start with a digit adds its own placeholders and
    leaves those before it alone. *)
Lemma placeholders_append (a b : string) :
  startsWithDigit b = false ->
  placeholders (a +:+ b) = placeholders a ++ placeholders b.
Proof.
  intros Hb. induction a as [|c a IH]; [reflexivity|].
  rewrite append_cons. simpl. rewrite IH, leadingNumber_append by exact Hb.
  destruct (isDollar c); [|reflexivity].
  destruct (leadingNumber a); reflexivity.
Qed.

Lemma readDigits_uint (d : Decimal.uint) (acc : nat) :
  readDigits acc (NilEmpty.string_of_uint d) = Nat.of_uint_acc d acc.
Proof.
  revert acc. induction d; intros acc; simpl; try reflexivity;
    rewrite IHd, Nat.tail_mul_spec; f_equal; cbv [digitValue]; simpl; lia.
Qed.

Lemma noDollar_uint (d : Decimal.uint) :
  noDollar (NilEmpty.string_of_uint d) = true.
Proof. unfold noDollar. induction d; simpl; auto. Qed.

Lemma to_uint_not_nil (n : nat) : Nat.to_uint n <> Decimal.Nil.
Proof.
  intros E. pose proof (Unsigned.of_to n) as H. rewrite E in H.
  cbv in H. subst n. discriminate E.
Qed.

Lemma startsWithDigit_itoa (n : nat) : startsWithDigit (itoa n) = true.
Proof.
  unfold itoa. pose proof (to_uint_not_nil n) as H.
  destruct (Nat.to_uint n); [congruence | reflexivity ..].
Qed.

Lemma leadingNumber_itoa (n : nat) : leadingNumber (itoa n) = Some n.
Proof.
  unfold leadingNumber. rewrite startsWithDigit_itoa.
  unfold itoa. rewrite readDigits_uint.
  change (Nat.of_uint_acc (Nat.to_uint n) 0) with (Nat.of_uint (Nat.to_uint n)).
  now rewrite Unsigned.of_to.
Qed.

(** A [$] followed by the decimal form of [n] and then by no further digit
    is the placeholder [n]. *)
Lemma placeholders_dollar (n : nat) (rest : string) :
  startsWithDigit rest = false ->
  placeholders (String "$" (itoa n +:+ rest)) = n :: placeholders rest.
Proof.
  intros H. simpl.
  rewrite leadingNumber_append, leadingNumber_itoa by exact H.
  f_equal. apply placeholders_clean_prefix. apply noDollar_uint.
Qed.

Lemma placeholders_literal_dollar (pre : string) (n : nat) (rest : string) :
  noDollar pre = true ->
  startsWithDigit rest = false ->
  placeholders (pre +:+ "$" +:+ itoa n +:+ rest) = n :: placeholders rest.
Proof.
  intros Hpre Hrest. rewrite placeholders_clean_prefix by exact Hpre.
  now apply placeholders_dollar.
Qed.

Lemma placeholders_groupAt (k : nat) (rest : string) :
  startsWithDigit rest = false ->
  placeholders (groupAt k +:+ rest) = k :: S k :: placeholders rest.
Proof.
  intros H. unfold groupAt. rewrite !append_assoc.
  etransitivity;
    [apply (placeholders_literal_dollar "(name ILIKE " k); reflexivity|].
  f_equal.
  etransitivity;
    [apply (placeholders_literal_dollar " OR category ILIKE " (S k));
     reflexivity|].
  reflexivity.
Qed.

Lemma placeholders_groups (t k : nat) :
  placeholders (Join (map (fun i => groupAt (k + 2 * i)) (seq 0 t)) " AND ") =
  seq k (2 * t).
Proof.
  revert k. induction t as [|t IH]; intros k; [reflexivity|].
  cbn [seq map]. rewrite <- seq_shift, map_map.
  rewrite (map_ext (fun x => groupAt (k + 2 * S x))
                   (fun i => groupAt (S (S k) + 2 * i)))
    by (intros i; f_equal; lia).
  replace (k + 2 * 0) with k by lia.
  replace (2 * S t) with (S (S (2 * t))) by lia. cbn [seq].
  specialize (IH (S (S k))).
  destruct (map (fun i => groupAt (S (S k) + 2 * i)) (seq 0 t)) as [|g gs] eqn:E.
  - cbn [Join]. rewrite <- (append_nil_r (groupAt k)).
    rewrite placeholders_groupAt by reflexivity.
    destruct t; [reflexivity | discriminate E].
  - change (Join (groupAt k :: g :: gs) " AND ")
      with (groupAt k +:+ " AND " +:+ Join (g :: gs) " AND ").
    rewrite placeholders_groupAt by reflexivity.
    rewrite (placeholders_clean_prefix " AND ") by reflexivity.
    now rewrite IH.
Qed.

Lemma placeholders_whereTemplate (t : nat) :
  placeholders (whereTemplate t) = seq 1 (2 * t).
Proof.
  unfold whereTemplate.
  rewrite (map_ext (fun i => groupAt (2 * i + 1)) (fun i => groupAt (1 + 2 * i)))
    by (intros i; f_equal; lia).
  apply placeholders_groups.
Qed.

Lemma placeholders_orderClauseAt (k : nat) :
  placeholders (Ranking.orderClauseAt k) = [k; k + 1].
Proof.
  unfold Ranking.orderClauseAt.
  etransitivity;
    [apply (placeholders_literal_dollar
              (Ranking.LF +:+ "            CASE" +:+ Ranking.LF +:+
               "                WHEN LOWER(name) LIKE LOWER(") k); reflexivity|].
  f_equal.
  etransitivity;
    [apply (placeholders_literal_dollar
              (") THEN 1" +:+ Ranking.LF +:+
               "                WHEN LOWER(category) LIKE LOWER(") (k + 1));
     reflexivity|].
  reflexivity.
Qed.

Lemma noDollar_Join (elems : list string) :
  Forall (fun f => noDollar f = true) elems -> noDollar (Join elems ", ") = true.
Proof.
  induction elems as [|e rest IH]; intros H; [reflexivity|].
  inversion H as [|? ? He Hrest]; subst. specialize (IH Hrest).
  destruct rest as [|e' rest]; [exact He|].
  change (Join (e :: e' :: rest) ", ") with (e +:+ ", " +:+ Join (e' :: rest) ", ").
  unfold noDollar in *. rewrite !allBytes_append, He, IH. reflexivity.
Qed.

(** The statement for [t] terms names the placeholders [$1] to [$(2t+3)],
    once each and in this order. *)
Lemma placeholders_sqlTemplate (model : string) (fields : list string) (t : nat) :
  noDollar model = true ->
  Forall (fun f => noDollar f = true) fields ->
  placeholders (sqlTemplate model fields t) = seq 1 (2 * t + 3).
Proof.
  intros Hmodel Hfields. unfold sqlTemplate, Ranking.queryStrOf.
  rewrite (placeholders_clean_prefix Ranking.LF) by reflexivity.
  rewrite (placeholders_clean_prefix "            SELECT ") by reflexivity.
  rewrite (placeholders_clean_prefix (Join fields ", ")) by now apply noDollar_Join.
  rewrite (placeholders_clean_prefix Ranking.LF) by reflexivity.
  rewrite (placeholders_clean_prefix "              FROM ") by reflexivity.
  rewrite (placeholders_clean_prefix model) by exact Hmodel.
  rewrite (placeholders_clean_prefix Ranking.LF) by reflexivity.
  rewrite (placeholders_clean_prefix "             WHERE ") by reflexivity.
  rewrite (placeholders_append (whereTemplate t)) by reflexivity.
  rewrite placeholders_whereTemplate.
  rewrite (placeholders_clean_prefix Ranking.LF) by reflexivity.
  rewrite (placeholders_clean_prefix "          ORDER BY ") by reflexivity.
  rewrite (placeholders_append (Ranking.orderClauseAt (2 * t + 1))) by reflexivity.
  rewrite placeholders_orderClauseAt.
  rewrite (placeholders_clean_prefix Ranking.LF) by reflexivity.
  assert (Hlimit : placeholders ("             LIMIT $" +:+ itoa (2 * t + 3) +:+
                                 Ranking.LF +:+ "        ") = [2 * t + 3])
    by (apply (placeholders_literal_dollar "             LIMIT "); reflexivity).
  rewrite Hlimit.
  replace (2 * t + 3) with (2 * t + (2 + 1)) at 2 by lia.
  rewrite !seq_app. cbn [seq app].
  repeat (f_equal; try lia).
Qed.

(** ** The generated statement and its arguments *)

Section GeneratedQuery.
Context {U : Unicode}.
Variable allowed : gmap string (list string).

Lemma reachesQuery_validated (r : Ranking.Request) (req : Ranking.QueryRequest) :
  reachesQuery allowed r req ->
  allowed !! Ranking.Model req <> None /\
  Forall (fun f => In f (allowedColumns allowed (Ranking.Model req)))
         (Ranking.Fields req).
Proof.
  intros (_ & _ & _ & _ & _ & cols & Hcols & Hall).
  unfold allowedColumns. rewrite Hcols. split; [discriminate | exact Hall].
Qed.

(** The call of a run, spelled out. *)
Lemma handler_call_closed (db : DB) (r : Ranking.Request)
  (req : Ranking.QueryRequest) (c : DbCall) :
  Ranking.Decoded r = Some req ->
  snd (Ranking.MakeQueryHandler db allowed r) = [c] ->
  let terms := Ranking.prepareSearchTerms (Ranking.QueryText req) in
  sqlText c = sqlTemplate (Ranking.Model req) (Ranking.Fields req) (length terms) /\
  sqlArgs c =
    likeArgs terms ++
    [AString ("%" +:+ ToLower (Ranking.QueryText req) +:+ "%");
     AString ("%" +:+ ToLower (Ranking.QueryText req) +:+ "%");
     AInt (Ranking.MaxResults (Ranking.clampMaxResults req))].
Proof.
  intros Hd Hc terms.
  destruct (handler_call_inv db allowed r req c Hd Hc) as (_ & -> & _).
  pose proof (buildQuery_closed (Ranking.clampMaxResults req)) as H.
  cbv zeta in H.
  destruct (clampMaxResults_same req) as (Em & Ef & Eq).
  rewrite Em, Ef, Eq in H.
  destruct H as (_ & _ & _ & _ & Hex & _ & _ & Hsql & Hargs).
  unfold callOf. cbn [sqlText sqlArgs]. rewrite Hsql, Hargs, Hex. now split.
Qed.


(** C4. In the ranking handler the statement reads [SELECT] fields [FROM]
    model [WHERE] clause [ORDER BY] ..., where the clause is the
    conjunction, over the search terms in their order, of the groups
    [(name ILIKE $(2i+1) OR category ILIKE $(2i+2))], and the two arguments
    bound to the placeholders of the i-th group are the pattern [%term%] of
    the i-th term. *)
Theorem where_clause_conjunction (db : DB) (r : Ranking.Request)
  (req : Ranking.QueryRequest) (c : DbCall) :
  Ranking.Decoded r = Some req ->
  snd (Ranking.MakeQueryHandler db allowed r) = [c] ->
  let terms := Ranking.prepareSearchTerms (Ranking.QueryText req) in
  let whereClause :=
    Join (map (fun i => "(name ILIKE $" +:+ itoa (2 * i + 1) +:+
                        " OR category ILIKE $" +:+ itoa (2 * i + 2) +:+ ")")
              (seq 0 (length terms))) " AND " in
  terms <> [] /\
  (exists rest,
     sqlText c =
       Ranking.LF +:+ "            SELECT " +:+ Join (Ranking.Fields req) ", " +:+
       Ranking.LF +:+ "              FROM " +:+ Ranking.Model req +:+
       Ranking.LF +:+ "             WHERE " +:+ whereClause +:+
       Ranking.LF +:+ "          ORDER BY " +:+ rest) /\
  forall i term, nth_error terms i = Some term ->
    nth_error (sqlArgs c) (2 * i) = Some (AString ("%" +:+ term +:+ "%")) /\
    nth_error (sqlArgs c) (2 * i + 1) = Some (AString ("%" +:+ term +:+ "%")).
Proof.
  intros Hd Hc terms whereClause.
  destruct (handler_call_closed db r req c Hd Hc) as (Hs & Ha).
  fold terms in Hs, Ha.
  split; [|split].
  - pose proof (prepareSearchTerms_length_pos (Ranking.QueryText req)) as H.
    fold terms in H. intros E. rewrite E in H. simpl in H. lia.
  - assert (Hw : whereTemplate (length terms) = whereClause).
    { unfold whereTemplate. subst whereClause. f_equal.
      apply map_ext. intros i. unfold groupAt.
      now replace (S (2 * i + 1)) with (2 * i + 2) by lia. }
    rewrite Hs. unfold sqlTemplate, Ranking.queryStrOf. rewrite Hw.
    eexists. reflexivity.
  - intros i term Hi. rewrite Ha.
    destruct (likeArgs_nth terms i term Hi) as (H1 & H2).
    assert (Hlt : i < length terms) by (apply nth_error_Some; congruence).
    rewrite !nth_error_app1 by (rewrite likeArgs_length; lia).
    now split.
Qed.

(** C7. The SELECT clause of the statement is the field list of the
    request, joined with [", "] in the order of the request; that list is
    never empty and each field is in the allow-list of the model, so that no
    request reaches query construction without explicit fields. *)
Theorem select_clause_is_field_list (db : DB) (r : Ranking.Request)
  (req : Ranking.QueryRequest) (c : DbCall) :
  Ranking.Decoded r = Some req ->
  snd (Ranking.MakeQueryHandler db allowed r) = [c] ->
  Ranking.Fields req <> [] /\
  Forall (fun f => In f (allowedColumns allowed (Ranking.Model req)))
         (Ranking.Fields req) /\
  exists rest,
    sqlText c =
      Ranking.LF +:+ "            SELECT " +:+ Join (Ranking.Fields req) ", " +:+
      Ranking.LF +:+ "              FROM " +:+ Ranking.Model req +:+
      Ranking.LF +:+ "             WHERE " +:+ rest.
Proof.
  intros Hd Hc.
  destruct (handler_call_closed db r req c Hd Hc) as (Hs & _).
  destruct (handler_call_inv db allowed r req c Hd Hc) as (Hreach & _ & _).
  destruct (reachesQuery_validated r req Hreach) as (_ & Hall).
  split; [apply Hreach|]. split; [exact Hall|].
  rewrite Hs. unfold sqlTemplate, Ranking.queryStrOf. eexists. reflexivity.
Qed.

(** C10. In the ranking handler, for a request with [t] search terms the
    argument list has [2t+3] elements: two patterns per term, the
    exact-match pattern twice, the limit last.  When no identifier of the
    allow-list holds a [$] (as in the allow-list of [main.go]), the
    statement names the placeholders [$1] to [$(2t+3)].  The list of WHERE
    clauses is never empty, so the clause is their conjunction and never the
    fallback [1=1]. *)
Theorem statement_and_arguments_agree (db : DB) (r : Ranking.Request)
  (req : Ranking.QueryRequest) (c : DbCall) :
  Ranking.Decoded r = Some req ->
  snd (Ranking.MakeQueryHandler db allowed r) = [c] ->
  let q := Ranking.buildQuery (Ranking.clampMaxResults req) in
  let terms := Ranking.prepareSearchTerms (Ranking.QueryText req) in
  let t := length terms in
  c = callOf q /\
  length (sqlArgs c) = 2 * t + 3 /\
  sqlArgs c =
    likeArgs terms ++
    [AString ("%" +:+ ToLower (Ranking.QueryText req) +:+ "%");
     AString ("%" +:+ ToLower (Ranking.QueryText req) +:+ "%");
     AInt (Ranking.MaxResults (Ranking.clampMaxResults req))] /\
  (cleanIdentifiers allowed -> placeholders (sqlText c) = seq 1 (2 * t + 3)) /\
  length (Ranking.whereClauses q) = t /\
  (0 <? length (Ranking.whereClauses q))%nat = true /\
  Ranking.whereClause q = Join (Ranking.whereClauses q) " AND ".
Proof.
  intros Hd Hc q terms t.
  destruct (handler_call_closed db r req c Hd Hc) as (Hs & Ha).
  destruct (handler_call_inv db allowed r req c Hd Hc) as (Hreach & Hcall & _).
  fold terms in Hs, Ha. fold t in Hs.
  pose proof (buildQuery_closed (Ranking.clampMaxResults req)) as H.
  cbv zeta in H. fold q in H.
  destruct (clampMaxResults_same req) as (_ & _ & Eq). rewrite Eq in H.
  fold terms in H. fold t in H.
  destruct H as (_ & _ & Hwc & Hw & _).
  assert (Ht : 0 < t) by apply prepareSearchTerms_length_pos.
  assert (Hlen : length (Ranking.whereClauses q) = t)
    by (rewrite Hwc, length_map, length_seq; reflexivity).
  split; [exact Hcall|]. split.
  { rewrite Ha, length_app, likeArgs_length. fold t. simpl. lia. }
  split; [exact Ha|]. split.
  { intros Hclean. rewrite Hs.
    destruct Hreach as (_ & _ & _ & _ & _ & cols & Hcols & Hall).
    destruct (Hclean _ _ Hcols) as (Hm & Hf).
    apply placeholders_sqlTemplate; [exact Hm|].
    apply List.Forall_forall. intros f Hin.
    eapply List.Forall_forall in Hall; [|exact Hin].
    eapply List.Forall_forall in Hf; [exact Hf | exact Hall]. }
  split; [exact Hlen|]. split.
  { rewrite Hlen. now apply Nat.ltb_lt. }
  rewrite Hw, Hwc. reflexivity.
Qed.

End GeneratedQuery.

(** ** The generic handler *)

Section GenericHandler.
Variable db : DB.
Variable allowed : gmap string (list string).

Lemma generic_clamp_same (req : Generic.QueryRequest) :
  Generic.Model (Generic.clampMaxResults req) = Generic.Model req /\
  Generic.QueryText (Generic.clampMaxResults req) = Generic.QueryText req /\
  Generic.MaxResults (Generic.clampMaxResults req) =
    effectiveMaxResults (Generic.MaxResults req).
Proof.
  unfold Generic.clampMaxResults, effectiveMaxResults.
  destruct (Generic.MaxResults req <=? 0)%Z eqn:H1;
    destruct (100 <? Generic.MaxResults req)%Z eqn:H2; simpl;
    case_decide; repeat split; lia.
Qed.

(** A run of the generic handler that made a call: the model is known,
    some requested field is an allowed column, and the call carries the
    query text and the clamped limit. *)
Lemma generic_call_inv (r : Generic.Request) (req : Generic.QueryRequest) (c : DbCall) :
  Generic.Decoded r = Some req ->
  snd (Generic.MakeQueryHandler db allowed r) = [c] ->
  exists cols,
    allowed !! Generic.Model req = Some cols /\
    Generic.validateFields (Generic.Fields req) cols <> [] /\
    sqlText c =
      Generic.queryOf (Generic.Model req)
        (Generic.validateFields (Generic.Fields req) cols) /\
    sqlArgs c = [AString (Generic.QueryText req);
                 AInt (effectiveMaxResults (Generic.MaxResults req))] /\
    fst (Generic.MakeQueryHandler db allowed r) =
      match db (sqlText c) (sqlArgs c) with
      | None => httpError "database query error" StatusInternalServerError
      | Some rows => Generic.respond rows
      end.
Proof.
  intros Hd. unfold Generic.MakeQueryHandler. rewrite Hd.
  destruct (negb (Generic.Method r =? "POST")); [discriminate|].
  destruct (allowed !! Generic.Model req) as [cols|] eqn:Hcols; [|discriminate].
  destruct (Generic.validateFields (Generic.Fields req) cols) as [|f fs] eqn:Hv;
    [discriminate|].
  cbn [length Nat.eqb].
  destruct (String.length (Generic.QueryText req) <? 1)%nat; [discriminate|].
  destruct (generic_clamp_same req) as (-> & -> & ->).
  cbv zeta. intros Hc. exists cols. rewrite Hv.
  set (q := Generic.queryOf _ _) in *.
  set (a := [AString _; AInt _]) in *.
  assert (Ec : c = {| sqlText := q; sqlArgs := a |})
    by (destruct (db q a); cbn [snd] in Hc; congruence).
  subst c. cbn [sqlText sqlArgs].
  repeat split; try discriminate. destruct (db q a); reflexivity.
Qed.

End GenericHandler.

(** ** The limit *)

Lemma ranking_clamp_effective (req : Ranking.QueryRequest) :
  Ranking.MaxResults (Ranking.clampMaxResults req) =
  effectiveMaxResults (Ranking.MaxResults req).
Proof. apply clampMaxResults_value. Qed.

(** C8. The last argument of the call, bound to LIMIT, is 10 when the
    supplied [maxResults] is at most 0 or above 100, and the supplied value
    when it lies in 1..100, in both handlers; 0 (also the value of an absent
    key), -5, 101 and 1000 give 10 and 50 stays 50. *)
Theorem limit_is_clamped_maxResults {U : Unicode} (db : DB)
  (allowed : gmap string (list string)) :
  (forall r req c,
     Ranking.Decoded r = Some req ->
     snd (Ranking.MakeQueryHandler db allowed r) = [c] ->
     exists front,
       sqlArgs c = front ++ [AInt (effectiveMaxResults (Ranking.MaxResults req))]) /\
  (forall r req c,
     Generic.Decoded r = Some req ->
     snd (Generic.MakeQueryHandler db allowed r) = [c] ->
     exists front,
       sqlArgs c = front ++ [AInt (effectiveMaxResults (Generic.MaxResults req))]) /\
  (forall m : Z,
     ((m <= 0 \/ 100 < m)%Z -> effectiveMaxResults m = 10%Z) /\
     ((1 <= m <= 100)%Z -> effectiveMaxResults m = m)) /\
  effectiveMaxResults 0 = 10%Z /\
  effectiveMaxResults (-5) = 10%Z /\
  effectiveMaxResults 101 = 10%Z /\
  effectiveMaxResults 1000 = 10%Z /\
  effectiveMaxResults 50 = 50%Z.
Proof.
  split; [|split; [|split]].
  - intros r req c Hd Hc.
    destruct (handler_call_closed allowed db r req c Hd Hc) as (_ & Ha).
    rewrite ranking_clamp_effective in Ha.
    eexists (_ ++ [_; _]). rewrite Ha, <- app_assoc. reflexivity.
  - intros r req c Hd Hc.
    destruct (generic_call_inv db allowed r req c Hd Hc) as (cols & _ & _ & _ & Ha & _).
    exists [AString (Generic.QueryText req)]. exact Ha.
  - intros m. unfold effectiveMaxResults. split; intros H; case_decide; lia.
  - repeat split.
Qed.

(** ** The response of a successful search *)







(** ** The ORDER BY expression and the order of the records *)

(** The statement orders by the CASE expression over [$(2t+1)] and
    [$(2t+2)], both bound to the lower-cased query text between two [%];
    the ordering itself is the storage's work. *)
Lemma ranking_order_clause {U : Unicode} (db : DB)
  (allowed : gmap string (list string)) (r : Ranking.Request)
  (req : Ranking.QueryRequest) (c : DbCall) :
  Ranking.Decoded r = Some req ->
  snd (Ranking.MakeQueryHandler db allowed r) = [c] ->
  let t := length (Ranking.prepareSearchTerms (Ranking.QueryText req)) in
  let exact := AString ("%" +:+ ToLower (Ranking.QueryText req) +:+ "%") in
  (exists before after,
     sqlText c =
       before +:+ "          ORDER BY " +:+ Ranking.orderClauseAt (2 * t + 1) +:+ after) /\
  nth_error (sqlArgs c) (2 * t) = Some exact /\
  nth_error (sqlArgs c) (2 * t + 1) = Some exact.
Proof.
  intros Hd Hc t exact.
  destruct (handler_call_closed allowed db r req c Hd Hc) as (Hs & Ha).
  fold t in Hs. split; [|split].
  - rewrite Hs. unfold sqlTemplate, Ranking.queryStrOf.
    exists (Ranking.LF +:+ "            SELECT " +:+
            Join (Ranking.Fields req) ", " +:+
            Ranking.LF +:+ "              FROM " +:+ Ranking.Model req +:+
            Ranking.LF +:+ "             WHERE " +:+ whereTemplate t +:+ Ranking.LF).
    eexists. rewrite !append_assoc. reflexivity.
  - rewrite Ha, nth_error_app2 by (rewrite likeArgs_length; fold t; lia).
    rewrite likeArgs_length. fold t. now rewrite Nat.sub_diag.
  - rewrite Ha, nth_error_app2 by (rewrite likeArgs_length; fold t; lia).
    rewrite likeArgs_length. fold t.
    now replace (2 * t + 1 - 2 * t) with 1 by lia.
Qed.

(** ** The allow-list of the server *)

Lemma allowedMain_clean : cleanIdentifiers allowedMain.
Proof.
  intros model cols H. unfold allowedMain in H.
  apply elem_of_list_to_map_2 in H.
  repeat (apply elem_of_cons in H as [[= -> ->]|H];
          [split; [reflexivity | repeat constructor]|]).
  now apply elem_of_nil in H.
Qed.

(** ** The generic handler against the same claims *)

(** A field outside the allow-list is dropped without a word and the query
    runs on the fields that remain. *)
Example generic_drops_invalid_field :
  Generic.MakeQueryHandler (dbOf noRows) allowedMain
    (genericPost ["name"; "bogus"] "laptop" 5) =
  ({| Status := 200; Body := ResultsCount [] 0 |},
   [{| sqlText := "SELECT * FROM items WHERE name ILIKE '%' || $1 || '%' LIMIT $2";
       sqlArgs := [AString "laptop"; AInt 5] |}]).
Proof. vm_compute. reflexivity. Qed.

(** Its statement is made of the model and of the fields kept; the query
    text and the limit are its two arguments. *)
Lemma generic_sql_text (db : DB) (allowed : gmap string (list string))
  (r : Generic.Request) (req : Generic.QueryRequest) (c : DbCall) :
  Generic.Decoded r = Some req ->
  snd (Generic.MakeQueryHandler db allowed r) = [c] ->
  sqlText c =
    Generic.queryOf (Generic.Model req)
      (Generic.validateFields (Generic.Fields req)
         (allowedColumns allowed (Generic.Model req))) /\
  sqlArgs c = [AString (Generic.QueryText req);
               AInt (effectiveMaxResults (Generic.MaxResults req))].
Proof.
  intros Hd Hc.
  destruct (generic_call_inv db allowed r req c Hd Hc) as (cols & Hcols & _ & Hs & Ha & _).
  unfold allowedColumns. rewrite Hcols. now split.
Qed.

(** ** Concrete runs *)

(** C1, the claim as worded fails: a request with a field outside the
    allow-list and an empty query text is rejected for the query text, and
    the response does not name the field. *)
Lemma invalid_field_with_empty_queryText :
  let req := itemsRequest ["bogus"] "" 5 in
  In "bogus" (Ranking.Fields req) /\
  ~ In "bogus" (allowedColumns allowedMain (Ranking.Model req)) /\
  (forall (U : Unicode) (db : DB),
     @Ranking.MakeQueryHandler U db allowedMain (post req) =
     (httpError "'queryText' is required" StatusBadRequest, [])) /\
  httpError "'queryText' is required" StatusBadRequest <>
  fieldNotAllowed "bogus" "items".
Proof.
  cbv zeta. split; [left; reflexivity|]. split.
  - vm_compute. intuition discriminate.
  - split; [intros U db; reflexivity | discriminate].
Qed.

Lemma invalid_field_rejected_witness :
  let r := post (itemsRequest ["id"; "bogus"] "laptop" 5) in
  snd (@Ranking.MakeQueryHandler asciiOnly (dbOf twoRows) allowedMain r) = [] /\
  exists before f0 after,
    ["id"; "bogus"] = before ++ f0 :: after /\
    ~ In f0 (allowedColumns allowedMain "items") /\
    fst (@Ranking.MakeQueryHandler asciiOnly (dbOf twoRows) allowedMain r) =
      fieldNotAllowed f0 "items".
Proof.
  cbv zeta.
  assert (Hout : ~ In "bogus" (allowedColumns allowedMain "items"))
    by (vm_compute; intuition discriminate).
  destruct (@invalid_field_rejected asciiOnly (dbOf twoRows) allowedMain
              (post (itemsRequest ["id"; "bogus"] "laptop" 5))
              (itemsRequest ["id"; "bogus"] "laptop" 5) "bogus"
              eq_refl (or_intror (or_introl eq_refl)) Hout)
    as (Hcalls & _ & Hnamed).
  split; [exact Hcalls|].
  destruct Hnamed as (before & f0 & after & Hsplit & _ & Hf0 & Hresp);
    [reflexivity | discriminate | discriminate | vm_compute; discriminate |].
  exists before, f0, after. repeat split; assumption.
Defined.

(** C4, the claim as worded fails: for a query text of two terms the
    generic handler sends a WHERE clause of one condition on the requested
    field, bound to the whole query text; there is no conjunction over the
    terms, no condition on [category] and no pattern [%term%]. *)
Lemma generic_where_is_one_disjunction :
  let r := genericPost ["name"] "laptop stand" 5 in
  let args := [AString "laptop stand"; AInt 5] in
  @Ranking.prepareSearchTerms asciiOnly "laptop stand" = ["laptop"; "stand"] /\
  Generic.MakeQueryHandler (dbOf noRows) allowedMain r =
    ({| Status := 200; Body := ResultsCount [] 0 |},
     [{| sqlText := "SELECT * FROM items WHERE name ILIKE '%' || $1 || '%' LIMIT $2";
         sqlArgs := args |}]) /\
  ~ In (AString "%laptop%") args /\
  ~ In (AString "%stand%") args.
Proof.
  cbv zeta. split; [vm_compute; reflexivity|]. split; [vm_compute; reflexivity|].
  split; intros [H|[H|[]]]; discriminate H.
Qed.

(** C7, the claim as worded fails: the generic handler projects the full
    row although the request names its fields. *)
Lemma generic_selects_every_column :
  let req := {| Generic.Model := "items"; Generic.QueryText := "laptop";
                Generic.Fields := ["name"; "category"]; Generic.MaxResults := 5 |} in
  let r := {| Generic.Method := "POST"; Generic.Decoded := Some req |} in
  Generic.Fields req = ["name"; "category"] /\
  snd (Generic.MakeQueryHandler (dbOf noRows) allowedMain r) =
    [{| sqlText := "SELECT * FROM items WHERE name ILIKE '%' || $1 || '%' OR category ILIKE '%' || $1 || '%' LIMIT $2";
        sqlArgs := [AString "laptop"; AInt 5] |}].
Proof. cbv zeta. split; [reflexivity | vm_compute; reflexivity]. Qed.


(** C6, the claim as worded fails: a carriage return is white space but no
    separator of the tokenizer, so the first token of a two-line query keeps
    it. *)
Lemma carriage_return_is_no_separator :
  (forall U : Unicode, @Ranking.filteredTerms U crlfQuery <> []) /\
  (forall U : Unicode,
     @Ranking.prepareSearchTerms U crlfQuery = ["laptop" +:+ CR; "stand"]) /\
  (forall U : Unicode, @specTokens U crlfQuery = ["laptop"; "stand"]) /\
  ~ (forall (U : Unicode) (queryText : string),
       @Ranking.filteredTerms U queryText <> [] ->
       @Ranking.prepareSearchTerms U queryText = @specTokens U queryText).
Proof.
  split; [intros U; vm_compute; discriminate|].
  split; [intros U; vm_compute; reflexivity|].
  split; [intros U; vm_compute; reflexivity|].
  intros H. specialize (H asciiOnly crlfQuery).
  vm_compute in H. specialize (H ltac:(discriminate)). discriminate H.
Qed.

Lemma prepareSearchTerms_tokens_witness :
  @Ranking.prepareSearchTerms asciiOnly shoppingQuery = ["laptop"; "stand"; "usb"] /\
  Forall (fun term =>
            noUpper term = true /\
            2 <= String.length term /\
            index Ranking.stopWords term = false)
         (@Ranking.prepareSearchTerms asciiOnly shoppingQuery).
Proof.
  assert (Hne : List.filter keepTerm
                  (splitFields Ranking.isSeparator
                     (@ToLower asciiOnly (@TrimSpace asciiOnly shoppingQuery))) <> [])
    by (vm_compute; discriminate).
  destruct (@prepareSearchTerms_tokens asciiOnly shoppingQuery Hne) as (E & H).
  split; [rewrite E; vm_compute; reflexivity | exact H].
Defined.

Lemma laptop_run :
  snd (@Ranking.MakeQueryHandler asciiOnly (dbOf twoRows) allowedMain
         (post laptopRequest)) = [laptopCall].
Proof. vm_compute. reflexivity. Qed.

Lemma cable_run :
  snd (@Ranking.MakeQueryHandler asciiOnly (dbOf noRows) allowedMain
         (post cableRequest)) = [cableCall].
Proof. vm_compute. reflexivity. Qed.


Lemma where_clause_conjunction_witness :
  (exists rest,
     sqlText laptopCall =
       Ranking.LF +:+ "            SELECT id, name" +:+
       Ranking.LF +:+ "              FROM items" +:+
       Ranking.LF +:+ "             WHERE (name ILIKE $1 OR category ILIKE $2) AND (name ILIKE $3 OR category ILIKE $4)" +:+
       Ranking.LF +:+ "          ORDER BY " +:+ rest) /\
  nth_error (sqlArgs laptopCall) 0 = Some (AString "%laptop%") /\
  nth_error (sqlArgs laptopCall) 1 = Some (AString "%laptop%") /\
  nth_error (sqlArgs laptopCall) 2 = Some (AString "%stand%") /\
  nth_error (sqlArgs laptopCall) 3 = Some (AString "%stand%").
Proof.
  destruct (@where_clause_conjunction asciiOnly allowedMain (dbOf twoRows)
              (post laptopRequest) laptopRequest laptopCall eq_refl laptop_run)
    as (_ & (rest & Hs) & Hargs).
  destruct (Hargs 0 "laptop" eq_refl) as (H0 & H1).
  destruct (Hargs 1 "stand" eq_refl) as (H2 & H3).
  split; [exists rest; exact Hs|].
  repeat split; assumption.
Defined.

Lemma select_clause_is_field_list_witness :
  exists rest,
    sqlText laptopCall =
      Ranking.LF +:+ "            SELECT id, name" +:+
      Ranking.LF +:+ "              FROM items" +:+
      Ranking.LF +:+ "             WHERE " +:+ rest.
Proof.
  destruct (@select_clause_is_field_list asciiOnly allowedMain (dbOf twoRows)
              (post laptopRequest) laptopRequest laptopCall eq_refl laptop_run)
    as (_ & _ & rest & Hs).
  exists rest. exact Hs.
Defined.

Lemma statement_and_arguments_agree_witness :
  length (sqlArgs laptopCall) = 7 /\
  placeholders (sqlText laptopCall) = [1; 2; 3; 4; 5; 6; 7] /\
  last (sqlArgs laptopCall) = Some (AInt 10).
Proof.
  destruct (@statement_and_arguments_agree asciiOnly allowedMain (dbOf twoRows)
              (post laptopRequest) laptopRequest laptopCall eq_refl laptop_run)
    as (_ & Hlen & Hargs & Hph & _).
  split; [exact Hlen|]. split; [exact (Hph allowedMain_clean)|].
  rewrite Hargs. vm_compute. reflexivity.
Defined.

Lemma limit_is_clamped_maxResults_witness :
  (exists front, sqlArgs laptopCall = front ++ [AInt 10]) /\
  (exists front, sqlArgs cableCall = front ++ [AInt 50]).
Proof.
  destruct (@limit_is_clamped_maxResults asciiOnly (dbOf twoRows) allowedMain)
    as (Hlaptop & _).
  destruct (@limit_is_clamped_maxResults asciiOnly (dbOf noRows) allowedMain)
    as (Hcable & _).
  split.
  - exact (Hlaptop (post laptopRequest) laptopRequest laptopCall eq_refl laptop_run).
  - exact (Hcable (post cableRequest) cableRequest cableCall eq_refl cable_run).
Defined.






(** * Further properties of query.go *)

(** ** Every way out of the ranking handler *)

Lemma scanLoop_Some (cols : list string) (fetched : list (option (list Value)))
  (acc res : list (gmap string Value)) :
  scanLoop cols fetched acc = Some res ->
  exists vals,
    fetched = map Some vals /\
    Forall (fun v => length v = length cols) vals /\
    res = acc ++ map (rowMap cols) vals.
Proof.
  revert acc. induction fetched as [|row rest IH]; intros acc H; simpl in H.
  - injection H as <-. exists []. now rewrite app_nil_r.
  - destruct row as [v|]; simpl in H; [|discriminate].
    destruct (Nat.eqb_spec (length v) (length cols)) as [Hv|Hv]; [|discriminate].
    destruct (IH _ H) as (vals & -> & Hall & ->).
    exists (v :: vals). rewrite <- app_assoc. repeat split. now constructor.
Qed.

Lemma scanLoop_None (cols : list string) (fetched : list (option (list Value)))
  (acc : list (gmap string Value)) :
  scanLoop cols fetched acc = None <-> ~ allScan (length cols) fetched.
Proof.
  unfold allScan. revert acc. induction fetched as [|row rest IH]; intros acc; simpl.
  - split; [discriminate|]. intros H. destruct H. constructor.
  - destruct row as [v|]; simpl.
    + destruct (Nat.eqb_spec (length v) (length cols)) as [Hv|Hv].
      * rewrite IH. split; intros H Hall; apply H.
        -- now inversion Hall.
        -- constructor; [now exists v | exact Hall].
      * split; [|reflexivity]. intros _ Hall.
        inversion Hall as [|? ? (v' & Hv' & Hlen) _]. congruence.
    + split; [|reflexivity]. intros _ Hall.
      inversion Hall as [|? ? (v' & Hv' & _) _]. discriminate.
Qed.

Lemma allScan_vals (ndest : nat) (fetched : list (option (list Value))) :
  allScan ndest fetched <->
  exists vals, fetched = map Some vals /\ Forall (fun v => length v = ndest) vals.
Proof.
  unfold allScan. split.
  - induction 1 as [|row rest (v & -> & Hv) _ (vals & -> & Hall)].
    + now exists [].
    + exists (v :: vals). split; [reflexivity | now constructor].
  - intros (vals & -> & Hall). induction Hall as [|v vals Hv _ IH]; simpl.
    + constructor.
    + constructor; [now exists v | exact IH].
Qed.

(** What [Ranking.respond] answers, by the state of the cursor: the records
    of all the rows, nothing at all when the encoder refuses a record, or
    an error that carries no record.  A failing [Scan] is reported before a
    failing iteration. *)
Lemma ranking_respond_cases (rows : Rows) :
  let cols := default [] (Columns rows) in
  (allScan (length cols) (Fetched rows) /\ IterErr rows = false /\
   exists vals,
     Fetched rows = map Some vals /\
     encodes (map (rowMap cols) vals) = true /\
     Ranking.respond rows =
       {| Status := 200; Body := BareArray (map (rowMap cols) vals) |}) \/
  (allScan (length cols) (Fetched rows) /\ IterErr rows = false /\
   exists vals,
     Fetched rows = map Some vals /\
     encodes (map (rowMap cols) vals) = false /\
     Ranking.respond rows = {| Status := 200; Body := NoBody |}) \/
  (~ allScan (length cols) (Fetched rows) /\
   Ranking.respond rows = httpError "row scan error" 500) \/
  (allScan (length cols) (Fetched rows) /\ IterErr rows = true /\
   Ranking.respond rows = httpError "row iteration error" 500).
Proof.
  intros cols. unfold Ranking.respond. fold cols.
  destruct (scanLoop cols (Fetched rows) []) as [res|] eqn:E.
  - destruct (scanLoop_Some _ _ _ _ E) as (vals & Hf & Hall & ->).
    assert (Hscan : allScan (length cols) (Fetched rows))
      by (apply allScan_vals; now exists vals).
    cbn [app].
    destruct (IterErr rows).
    + right. right. right. repeat split; assumption.
    + destruct (encodes (map (rowMap cols) vals)) eqn:Henc.
      * left. split; [exact Hscan|]. split; [reflexivity|].
        exists vals. split; [exact Hf|]. split; [exact Henc | reflexivity].
      * right. left. split; [exact Hscan|]. split; [reflexivity|].
        exists vals. split; [exact Hf|]. split; [exact Henc | reflexivity].
  - right. right. left. split; [now apply scanLoop_None in E | reflexivity].
Qed.

Section RankingOutcomes.
Context {U : Unicode}.
Variable db : DB.
Variable allowed : gmap string (list string).

(** The rejections by status: 405 for a method other than POST, 400 for
    every other failed check. *)
Lemma handler_rejection_status (r : Ranking.Request) :
  (Ranking.Method r <> "POST" /\
   Ranking.MakeQueryHandler db allowed r =
     (httpError "method not allowed" 405, [])) \/
  (Ranking.Method r = "POST" /\
   exists msg, Ranking.MakeQueryHandler db allowed r = (httpError msg 400, [])) \/
  (Ranking.Method r = "POST" /\ exists req, reachesQuery allowed r req).
Proof.
  unfold Ranking.MakeQueryHandler, reachesQuery.
  destruct (String.eqb_spec (Ranking.Method r) "POST") as [Hm|Hm]; simpl;
    [|left; split; [exact Hm | reflexivity]].
  right.
  destruct (Ranking.Decoded r) as [req|] eqn:Hd;
    [|left; split; [exact Hm | eexists; reflexivity]].
  destruct (String.eqb_spec (Ranking.Model req) "") as [Hmodel|Hmodel];
    [left; split; [exact Hm | eexists; reflexivity]|].
  destruct (Ranking.Fields req) as [|f fs] eqn:Hf; simpl;
    [left; split; [exact Hm | eexists; reflexivity]|].
  destruct (String.eqb_spec (Ranking.QueryText req) "") as [Htext|Htext];
    [left; split; [exact Hm | eexists; reflexivity]|].
  destruct (clampMaxResults_same req) as (-> & -> & _).
  destruct (allowed !! Ranking.Model req) as [cols|] eqn:Hcols;
    [|left; split; [exact Hm | eexists; reflexivity]].
  rewrite Hf.
  destruct (Ranking.firstNotAllowed (Ranking.makeAllowedSet cols) (f :: fs))
    as [f0|] eqn:Hfirst; [left; split; [exact Hm | eexists; reflexivity]|].
  right. split; [exact Hm|]. exists req. repeat split; auto; try congruence.
  exists cols. split; [exact Hcols|]. rewrite Hf. now apply firstNotAllowed_None.
Qed.

(** X1. A run of the ranking handler makes no storage call and answers
    405 or 400 (405 exactly for a method other than POST), or makes exactly
    one call and answers 200 with an array of records, 200 with nothing
    written (the encoder refused a record and its error is dropped), or 500
    with one of three fixed messages.  It never calls the storage twice,
    never calls it for a request it rejects, and no 500 body holds SQL text
    or the driver's error. *)
Theorem ranking_outcome_taxonomy (r : Ranking.Request) :
  let resp := fst (Ranking.MakeQueryHandler db allowed r) in
  let calls := snd (Ranking.MakeQueryHandler db allowed r) in
  (calls = [] /\
   (Status resp = 405 /\ Ranking.Method r <> "POST" \/
    Status resp = 400 /\ Ranking.Method r = "POST") /\
   exists msg, Body resp = Plain msg) \/
  (exists c, calls = [c] /\ Ranking.Method r = "POST" /\
     ((Status resp = 200 /\
       exists results, encodes results = true /\ Body resp = BareArray results) \/
      (Status resp = 200 /\ Body resp = NoBody) \/
      (Status resp = 500 /\
       (Body resp = Plain "database query error" \/
        Body resp = Plain "row scan error" \/
        Body resp = Plain "row iteration error")))).
Proof.
  cbv zeta.
  destruct (handler_rejection_status r)
    as [(Hm & E) | [(Hm & msg & E) | (Hm & req & Hreach)]].
  - left. rewrite E. cbn. split; [reflexivity|]. split; [now left | now eexists].
  - left. rewrite E. cbn. split; [reflexivity|]. split; [now right | now eexists].
  - right. rewrite (handler_reaches db allowed r req Hreach). unfold runQuery.
    cbn [fst snd]. eexists. split; [reflexivity|]. split; [exact Hm|].
    destruct (db _ _) as [rows|]; [|right; right; cbn; auto].
    destruct (ranking_respond_cases rows)
      as [(_ & _ & vals & _ & Henc & ->) | [(_ & _ & vals & _ & _ & ->) |
          [(_ & ->) | (_ & _ & ->)]]]; cbn.
    + left. split; [reflexivity|]. eexists. split; [exact Henc | reflexivity].
    + right. left. split; reflexivity.
    + right. right. auto.
    + right. right. auto.
Qed.

(** X2. All or nothing: once the storage has answered with a cursor, the
    ranking handler sends either one record for every fetched row, in
    cursor order, or no record at all.  The records are sent, with the
    status 200, exactly when every row scans into as many values as there
    are columns, the iteration ends without an error and the encoder
    accepts every record.  When only the encoder fails, its error is
    dropped and the response is 200 with nothing written; a failing [Scan]
    gives 500 and is reported before a failing iteration, which gives 500
    as well. *)
Theorem ranking_all_or_nothing (r : Ranking.Request) (req : Ranking.QueryRequest)
  (c : DbCall) (rows : Rows) :
  Ranking.Decoded r = Some req ->
  snd (Ranking.MakeQueryHandler db allowed r) = [c] ->
  db (sqlText c) (sqlArgs c) = Some rows ->
  let resp := fst (Ranking.MakeQueryHandler db allowed r) in
  let cols := default [] (Columns rows) in
  (allScan (length cols) (Fetched rows) /\ IterErr rows = false /\
   exists vals,
     Fetched rows = map Some vals /\
     encodes (map (rowMap cols) vals) = true /\
     resp = {| Status := 200; Body := BareArray (map (rowMap cols) vals) |}) \/
  (allScan (length cols) (Fetched rows) /\ IterErr rows = false /\
   exists vals,
     Fetched rows = map Some vals /\
     encodes (map (rowMap cols) vals) = false /\
     resp = {| Status := 200; Body := NoBody |}) \/
  (~ allScan (length cols) (Fetched rows) /\
   resp = httpError "row scan error" 500) \/
  (allScan (length cols) (Fetched rows) /\ IterErr rows = true /\
   resp = httpError "row iteration error" 500).
Proof.
  intros Hd Hc Hdb resp cols. subst resp.
  destruct (handler_call_inv db allowed r req c Hd Hc) as (_ & Hcall & E).
  rewrite E. unfold runQuery. cbn [fst].
  rewrite Hcall in Hdb. unfold callOf in Hdb. cbn [sqlText sqlArgs] in Hdb.
  rewrite Hdb. apply ranking_respond_cases.
Qed.

End RankingOutcomes.

(** ** More on the tokenizer *)

Lemma pieces_separator_free sep (s : string) :
  Forall (fun w => allBytes (fun c => negb (sep c)) w = true) (pieces sep s).
Proof.
  induction s as [|c s IH]; simpl.
  - repeat constructor.
  - destruct (sep c) eqn:Hc.
    + constructor; [reflexivity | exact IH].
    + destruct (pieces sep s) as [|w ws]; inversion IH; subst;
        constructor; simpl; rewrite ?Hc; auto.
Qed.

(** The bytes of the pieces and the separators between them make up the
    text: each piece counted with one byte more gives the length plus one. *)
Lemma pieces_total_length sep (s : string) :
  list_sum (map (fun w => S (String.length w)) (pieces sep s)) = S (String.length s).
Proof.
  induction s as [|c s IH]; simpl; [reflexivity|].
  destruct (sep c).
  - simpl. now rewrite IH.
  - destruct (pieces sep s) as [|w ws]; simpl in *; lia.
Qed.

Lemma filter_total_le (keep : string -> bool) (l : list string) :
  list_sum (map (fun w => S (String.length w)) (List.filter keep l)) <=
  list_sum (map (fun w => S (String.length w)) l).
Proof.
  induction l as [|w l IH]; simpl; [lia|].
  destruct (keep w); simpl; lia.
Qed.

Lemma kept_terms_weigh_three (l : list string) :
  Forall (fun w => 2 <= String.length w) l ->
  3 * length l <= list_sum (map (fun w => S (String.length w)) l).
Proof. induction 1 as [|w l Hw _ IH]; simpl; lia. Qed.

Section TokenizerBounds.
Context {U : Unicode}.

(** X3. Outside the fallback, no returned term holds a separator byte
    (space, comma, semicolon, tab, newline), so every term is one word of
    the cleaned text. *)
Theorem terms_hold_no_separator (queryText : string) :
  Ranking.filteredTerms queryText <> [] ->
  Forall (fun term =>
            allBytes (fun c => negb (Ranking.isSeparator c)) term = true)
         (Ranking.prepareSearchTerms queryText).
Proof.
  intros Hne.
  destruct (prepareSearchTerms_cases queryText) as [[E _] | [_ E]]; [congruence|].
  rewrite E, filteredTerms_filter. apply List.Forall_forall. intros t Ht.
  apply filter_In in Ht as [Hin _]. unfold splitFields in Hin.
  apply filter_In in Hin as [Hin _].
  pose proof (pieces_separator_free Ranking.isSeparator
                (ToLower (TrimSpace queryText))) as HF.
  eapply List.Forall_forall in HF; [exact HF | exact Hin].
Qed.

(** X4. The number of search terms is bounded by the length of the
    cleaned text: three times the number of terms is at most that length
    plus one, unless the tokenizer falls back to its single term.  With it
    the number of bound arguments, two per term and three more, is bounded
    too. *)
Theorem term_count_bound (queryText : string) :
  let terms := Ranking.prepareSearchTerms queryText in
  let cleaned := ToLower (TrimSpace queryText) in
  length terms = 1 \/ 3 * length terms <= String.length cleaned + 1.
Proof.
  cbv zeta.
  destruct (prepareSearchTerms_cases queryText) as [[_ E] | [_ E]]; rewrite E.
  - now left.
  - right. rewrite filteredTerms_filter.
    set (cleaned := ToLower (TrimSpace queryText)).
    assert (Hlen : Forall (fun w => 2 <= String.length w)
                     (List.filter keepTerm (splitFields Ranking.isSeparator cleaned))).
    { apply List.Forall_forall. intros t Ht. apply filter_In in Ht as [_ Hk].
      unfold keepTerm in Hk. apply andb_true_iff in Hk as [Hk _].
      now apply Nat.leb_le. }
    pose proof (kept_terms_weigh_three _ Hlen) as H3.
    pose proof (filter_total_le keepTerm (splitFields Ranking.isSeparator cleaned)) as H1.
    pose proof (filter_total_le nonEmpty (pieces Ranking.isSeparator cleaned)) as H2.
    fold (splitFields Ranking.isSeparator cleaned) in H2.
    pose proof (pieces_total_length Ranking.isSeparator cleaned) as H0.
    lia.
Qed.

End TokenizerBounds.

(** ** The record of a row *)

Lemma fold_insert_lookup (l : list (string * Value)) (m : gmap string Value)
  (c : string) :
  fold_left (fun m cv => <[fst cv := snd cv]> m) l m !! c =
  match last (map snd (List.filter (fun cv => fst cv =? c) l)) with
  | Some v => Some v
  | None => m !! c
  end.
Proof.
  revert m. induction l as [|[k v] l IH]; intros m; [reflexivity|].
  cbn [fold_left List.filter fst snd]. rewrite IH.
  destruct (String.eqb_spec k c) as [->|Hne]; cbn [map snd].
  - rewrite last_cons.
    destruct (last (map snd (List.filter (fun cv => fst cv =? c) l)));
      [reflexivity | apply lookup_insert_eq].
  - destruct (last (map snd (List.filter (fun cv => fst cv =? c) l)));
      [reflexivity | now apply lookup_insert_ne].
Qed.

Lemma filter_key_absent (l : list (string * Value)) (c : string) :
  ~ In c (map fst l) -> List.filter (fun cv => fst cv =? c) l = [].
Proof.
  induction l as [|[k v] l IH]; intros H; [reflexivity|]. simpl in *.
  destruct (String.eqb_spec k c) as [->|_]; [tauto|]. apply IH. tauto.
Qed.

Lemma combine_keys (cols : list string) (vals : list Value) (c : string) :
  In c (map fst (combine cols vals)) -> In c cols.
Proof.
  revert vals. induction cols as [|k cols IH]; intros [|v vals]; simpl; try tauto.
  intros [H|H]; [now left | right; eauto].
Qed.

(** X5. The record built from a row maps a column name to the value of the
    last column of that name: a name that is no column is absent from the
    record, and when the column names are distinct every column is looked
    up to its own value. *)
Theorem record_lookup (cols : list string) (vals : list Value) :
  (forall c,
     rowMap cols vals !! c =
     last (map snd (List.filter (fun cv => fst cv =? c) (combine cols vals)))) /\
  (forall c, ~ In c cols -> rowMap cols vals !! c = None) /\
  (NoDup cols ->
   forall i c v,
     nth_error cols i = Some c -> nth_error vals i = Some v ->
     rowMap cols vals !! c = Some v).
Proof.
  assert (Hgen : forall c,
            rowMap cols vals !! c =
            last (map snd (List.filter (fun cv => fst cv =? c) (combine cols vals)))).
  { intros c. unfold rowMap. rewrite fold_insert_lookup.
    destruct (last _); [reflexivity | apply lookup_empty]. }
  split; [exact Hgen|]. split.
  - intros c Hc. rewrite Hgen, filter_key_absent; [reflexivity|].
    intros H. apply Hc. eapply combine_keys, H.
  - intros Hnd i c v Hc Hv. rewrite Hgen. clear Hgen.
    revert vals i Hc Hv. induction Hnd as [|k cols Hk Hnd IH]; intros vals i Hc Hv.
    + destruct i; discriminate.
    + destruct vals as [|v0 vals]; [destruct i; discriminate|].
      destruct i as [|i]; simpl in Hc, Hv.
      * injection Hc as ->. injection Hv as ->. cbn [combine List.filter fst].
        rewrite String.eqb_refl, filter_key_absent; [reflexivity|].
        intros H. apply Hk. apply list_elem_of_In. eapply combine_keys, H.
      * cbn [combine List.filter fst].
        destruct (String.eqb_spec k c) as [->|_].
        -- exfalso. apply Hk. apply list_elem_of_In. eapply nth_error_In, Hc.
        -- eapply IH; eassumption.
Qed.

(** ** The generic handler: the fields it keeps *)

Lemma validate_inner (f : string) (cols acc : list string) :
  fold_left (fun fieldsToSearch ac =>
               if f =? ac then fieldsToSearch ++ [f] else fieldsToSearch)
            cols acc =
  acc ++ repeat f (length (List.filter (String.eqb f) cols)).
Proof.
  revert acc. induction cols as [|ac cols IH]; intros acc; simpl.
  - now rewrite app_nil_r.
  - rewrite IH. destruct (f =? ac); [|reflexivity].
    simpl. now rewrite <- app_assoc.
Qed.

Lemma validate_outer (fields cols acc : list string) :
  fold_left
    (fun fieldsToSearch f =>
       fold_left
         (fun fieldsToSearch ac =>
            if f =? ac then fieldsToSearch ++ [f] else fieldsToSearch)
         cols fieldsToSearch)
    fields acc =
  acc ++ flat_map (fun f => repeat f (length (List.filter (String.eqb f) cols))) fields.
Proof.
  revert acc. induction fields as [|f fields IH]; intros acc; simpl.
  - now rewrite app_nil_r.
  - now rewrite validate_inner, IH, <- app_assoc.
Qed.

Lemma filter_eqb_nonempty (f : string) (cols : list string) :
  0 < length (List.filter (String.eqb f) cols) <-> In f cols.
Proof.
  induction cols as [|ac cols IH]; simpl; [split; [lia | tauto]|].
  destruct (String.eqb_spec f ac) as [->|Hne]; simpl.
  - split; [now left | lia].
  - rewrite IH. split; [now right | intros [H|H]; congruence].
Qed.

Lemma filter_eqb_NoDup (f : string) (cols : list string) :
  NoDup cols ->
  length (List.filter (String.eqb f) cols) = if existsb (String.eqb f) cols then 1 else 0.
Proof.
  induction 1 as [|ac cols Hac _ IH]; simpl; [reflexivity|].
  destruct (String.eqb_spec f ac) as [->|Hne]; simpl; [|exact IH].
  assert (H0 : length (List.filter (String.eqb ac) cols) = 0).
  { destruct (length (List.filter (String.eqb ac) cols)) eqn:E; [reflexivity|].
    exfalso. apply Hac. apply list_elem_of_In, filter_eqb_nonempty. lia. }
  now rewrite H0.
Qed.

Lemma validateFields_flat_map (fields cols : list string) :
  Generic.validateFields fields cols =
  flat_map (fun f => repeat f (length (List.filter (String.eqb f) cols))) fields.
Proof. unfold Generic.validateFields. now rewrite validate_outer. Qed.

Lemma validateFields_In (fields cols : list string) (f : string) :
  In f (Generic.validateFields fields cols) <-> In f fields /\ In f cols.
Proof.
  rewrite validateFields_flat_map, in_flat_map. split.
  - intros (g & Hg & Hin). apply repeat_spec in Hin as Heq. subst g.
    split; [exact Hg|]. apply filter_eqb_nonempty.
    destruct (length (List.filter (String.eqb f) cols)); [destruct Hin | lia].
  - intros (Hf & Hc). exists f. split; [exact Hf|].
    apply filter_eqb_nonempty in Hc.
    destruct (length (List.filter (String.eqb f) cols)); [lia | now left].
Qed.

(** X6. The fields the generic handler keeps are the requested fields
    that are allowed columns, in the order of the request, each as many
    times as the allow-list names it; with distinct columns in the
    allow-list they are the requested fields filtered by membership.  No
    field outside the allow-list is ever kept. *)
Theorem validateFields_keeps_allowed (fields cols : list string) :
  Generic.validateFields fields cols =
    flat_map (fun f => repeat f (length (List.filter (String.eqb f) cols))) fields /\
  (forall f, In f (Generic.validateFields fields cols) <-> In f fields /\ In f cols) /\
  (NoDup cols ->
   Generic.validateFields fields cols =
     List.filter (fun f => existsb (String.eqb f) cols) fields).
Proof.
  split; [apply validateFields_flat_map|]. split; [apply validateFields_In|].
  intros Hnd. rewrite validateFields_flat_map.
  induction fields as [|f fields IH]; simpl; [reflexivity|].
  rewrite IH, (filter_eqb_NoDup f cols Hnd).
  destruct (existsb (String.eqb f) cols); reflexivity.
Qed.

(** ** The generic handler: statement, arguments and ways out *)

Lemma clauses_map (fieldsToSearch : list string) :
  Generic.clauses fieldsToSearch =
  map (fun f => f +:+ " ILIKE '%' || $1 || '%'") fieldsToSearch.
Proof.
  unfold Generic.clauses.
  assert (H : forall acc,
             fold_left (fun clauses f => clauses ++ [f +:+ " ILIKE '%' || $1 || '%'"])
                       fieldsToSearch acc =
             acc ++ map (fun f => f +:+ " ILIKE '%' || $1 || '%'") fieldsToSearch).
  { induction fieldsToSearch as [|f fs IH]; intros acc; simpl.
    - now rewrite app_nil_r.
    - now rewrite IH, <- app_assoc. }
  apply H.
Qed.

Lemma placeholders_clause (f rest : string) :
  noDollar f = true ->
  placeholders ((f +:+ " ILIKE '%' || $1 || '%'") +:+ rest) = 1 :: placeholders rest.
Proof.
  intros Hf. rewrite append_assoc, placeholders_clean_prefix by exact Hf.
  reflexivity.
Qed.

Lemma placeholders_clauses (fs : list string) (rest : string) :
  Forall (fun f => noDollar f = true) fs ->
  startsWithDigit rest = false ->
  placeholders
    (Join (map (fun f => f +:+ " ILIKE '%' || $1 || '%'") fs) " OR " +:+ rest) =
  repeat 1 (length fs) ++ placeholders rest.
Proof.
  intros H Hrest. induction H as [|f fs Hf Hfs IH]; [reflexivity|].
  destruct fs as [|g fs].
  - cbn [map Join length repeat app]. now apply placeholders_clause.
  - change (Join (map (fun f => f +:+ " ILIKE '%' || $1 || '%'") (f :: g :: fs)) " OR ")
      with ((f +:+ " ILIKE '%' || $1 || '%'") +:+ " OR " +:+
            Join (map (fun f => f +:+ " ILIKE '%' || $1 || '%'") (g :: fs)) " OR ").
    rewrite !append_assoc, <- (append_assoc f).
    rewrite placeholders_clause by exact Hf.
    rewrite (placeholders_clean_prefix " OR ") by reflexivity.
    rewrite IH. reflexivity.
Qed.

Section GenericOutcomes.
Variable db : DB.
Variable allowed : gmap string (list string).

(** X7. In the generic handler the statement is made of the model and of
    kept fields only, each kept field being requested and allow-listed, and
    at least one is kept.  When no identifier of the allow-list holds a
    [$], the statement names [$1] once per kept field and then [$2], and
    the call binds exactly two arguments: statement and arguments agree. *)
Theorem generic_statement_and_arguments (r : Generic.Request)
  (req : Generic.QueryRequest) (c : DbCall) :
  Generic.Decoded r = Some req ->
  snd (Generic.MakeQueryHandler db allowed r) = [c] ->
  let kept := Generic.validateFields (Generic.Fields req)
                (allowedColumns allowed (Generic.Model req)) in
  kept <> [] /\
  Forall (fun f => In f (Generic.Fields req) /\
                   In f (allowedColumns allowed (Generic.Model req))) kept /\
  sqlText c = Generic.queryOf (Generic.Model req) kept /\
  length (sqlArgs c) = 2 /\
  (cleanIdentifiers allowed ->
   placeholders (sqlText c) = repeat 1 (length kept) ++ [2]).
Proof.
  intros Hd Hc kept.
  destruct (generic_call_inv db allowed r req c Hd Hc)
    as (cols & Hcols & Hne & Hs & Ha & _).
  assert (Ecols : allowedColumns allowed (Generic.Model req) = cols)
    by (unfold allowedColumns; now rewrite Hcols).
  subst kept. rewrite Ecols.
  assert (Hall : Forall (fun f => In f (Generic.Fields req) /\ In f cols)
                   (Generic.validateFields (Generic.Fields req) cols)).
  { apply List.Forall_forall. intros f Hf.
    now apply (validateFields_In (Generic.Fields req) cols). }
  split; [exact Hne|]. split; [exact Hall|]. split; [exact Hs|].
  split; [now rewrite Ha|].
  intros Hclean. destruct (Hclean _ _ Hcols) as (Hm & Hf).
  rewrite Hs. unfold Generic.queryOf. cbv zeta. rewrite clauses_map.
  rewrite (placeholders_clean_prefix "SELECT * FROM ") by reflexivity.
  rewrite (placeholders_clean_prefix (Generic.Model req)) by exact Hm.
  rewrite (placeholders_clean_prefix " WHERE ") by reflexivity.
  rewrite placeholders_clauses; [reflexivity | | reflexivity].
  apply List.Forall_forall. intros f Hin.
  eapply List.Forall_forall in Hall; [|exact Hin].
  eapply List.Forall_forall in Hf; [exact Hf | apply Hall].
Qed.

(** The rejections of the generic handler by status. *)
Lemma generic_rejection_status (r : Generic.Request) :
  (Generic.Method r <> "POST" /\
   Generic.MakeQueryHandler db allowed r =
     (httpError "method not allowed" 405, [])) \/
  (Generic.Method r = "POST" /\
   exists msg, Generic.MakeQueryHandler db allowed r = (httpError msg 400, [])) \/
  (Generic.Method r = "POST" /\
   exists c,
     Generic.MakeQueryHandler db allowed r =
     (match db (sqlText c) (sqlArgs c) with
      | None => httpError "database query error" 500
      | Some rows => Generic.respond rows
      end, [c])).
Proof.
  unfold Generic.MakeQueryHandler.
  destruct (String.eqb_spec (Generic.Method r) "POST") as [Hm|Hm]; simpl;
    [|left; split; [exact Hm | reflexivity]].
  right.
  destruct (Generic.Decoded r) as [req|];
    [|left; split; [exact Hm | eexists; reflexivity]].
  destruct (allowed !! Generic.Model req) as [cols|];
    [|left; split; [exact Hm | eexists; reflexivity]].
  destruct (Generic.validateFields (Generic.Fields req) cols) as [|f fs];
    [left; split; [exact Hm | eexists; reflexivity]|].
  cbn [length Nat.eqb].
  destruct (String.length (Generic.QueryText req) <? 1)%nat;
    [left; split; [exact Hm | eexists; reflexivity]|].
  right. split; [exact Hm|]. cbv zeta.
  set (q := Generic.queryOf _ _). set (a := [AString _; AInt _]).
  exists {| sqlText := q; sqlArgs := a |}. cbn [sqlText sqlArgs].
  destruct (db q a); reflexivity.
Qed.

(** What [Generic.respond] answers, by the state of the cursor. *)
Lemma generic_respond_cases (rows : Rows) :
  (Columns rows = None /\
   Generic.respond rows = httpError "error fetching columns" 500) \/
  (exists cols, Columns rows = Some cols /\
     ((allScan (length cols) (Fetched rows) /\ IterErr rows = false /\
       exists vals,
         Fetched rows = map Some vals /\
         encodes (map (rowMap cols) vals) = true /\
         Generic.respond rows =
           {| Status := 200;
              Body := ResultsCount (map (rowMap cols) vals)
                                   (length (Fetched rows)) |}) \/
      (allScan (length cols) (Fetched rows) /\ IterErr rows = false /\
       exists vals,
         Fetched rows = map Some vals /\
         encodes (map (rowMap cols) vals) = false /\
         Generic.respond rows = {| Status := 200; Body := NoBody |}) \/
      (~ allScan (length cols) (Fetched rows) /\
       Generic.respond rows = httpError "error scanning row" 500) \/
      (allScan (length cols) (Fetched rows) /\ IterErr rows = true /\
       Generic.respond rows = httpError "row iteration error" 500))).
Proof.
  unfold Generic.respond. destruct (Columns rows) as [cols|]; [|now left].
  right. exists cols. split; [reflexivity|].
  destruct (scanLoop cols (Fetched rows) []) as [res|] eqn:E.
  - destruct (scanLoop_Some _ _ _ _ E) as (vals & Hf & Hall & ->).
    assert (Hscan : allScan (length cols) (Fetched rows))
      by (apply allScan_vals; now exists vals).
    cbn [app].
    destruct (IterErr rows).
    + right. right. right. repeat split; assumption.
    + destruct (encodes (map (rowMap cols) vals)) eqn:Henc.
      * left. split; [exact Hscan|]. split; [reflexivity|].
        exists vals. split; [exact Hf|]. split; [exact Henc|].
        now rewrite Hf, !length_map.
      * right. left. split; [exact Hscan|]. split; [reflexivity|].
        exists vals. split; [exact Hf|]. split; [exact Henc | reflexivity].
  - right. right. left. split; [now apply scanLoop_None in E | reflexivity].
Qed.

(** X8. A run of the generic handler makes no storage call and answers
    405 or 400 (405 exactly for a method other than POST), or makes exactly
    one call and answers 200 with the records and their count, 200 with
    nothing written (the encoder refused a record and its error is
    dropped), or 500 with one of four fixed messages. *)
Theorem generic_outcome_taxonomy (r : Generic.Request) :
  let resp := fst (Generic.MakeQueryHandler db allowed r) in
  let calls := snd (Generic.MakeQueryHandler db allowed r) in
  (calls = [] /\
   (Status resp = 405 /\ Generic.Method r <> "POST" \/
    Status resp = 400 /\ Generic.Method r = "POST") /\
   exists msg, Body resp = Plain msg) \/
  (exists c, calls = [c] /\ Generic.Method r = "POST" /\
     ((Status resp = 200 /\
       exists results,
         encodes results = true /\
         Body resp = ResultsCount results (length results)) \/
      (Status resp = 200 /\ Body resp = NoBody) \/
      (Status resp = 500 /\
       (Body resp = Plain "database query error" \/
        Body resp = Plain "error fetching columns" \/
        Body resp = Plain "error scanning row" \/
        Body resp = Plain "row iteration error")))).
Proof.
  cbv zeta.
  destruct (generic_rejection_status r)
    as [(Hm & E) | [(Hm & msg & E) | (Hm & c & E)]]; rewrite E; cbn [fst snd].
  - left. split; [reflexivity|]. split; [now left | now eexists].
  - left. split; [reflexivity|]. split; [now right | now eexists].
  - right. exists c. split; [reflexivity|]. split; [exact Hm|].
    destruct (db _ _) as [rows|]; [|right; right; cbn; auto].
    destruct (generic_respond_cases rows)
      as [(_ & ->) | (cols & _ & [(_ & _ & vals & Hf & Henc & ->) |
                                  [(_ & _ & vals & _ & _ & ->) |
                                   [(_ & ->) | (_ & _ & ->)]]])];
      cbn.
    + right. right. auto.
    + left. split; [reflexivity|]. exists (map (rowMap cols) vals).
      split; [exact Henc|]. now rewrite Hf, !length_map.
    + right. left. split; reflexivity.
    + right. right. auto 6.
    + right. right. auto 6.
Qed.

(** X9. All or nothing in the generic handler: once the storage has
    answered with a cursor, the response is a 500 without any record when
    the columns cannot be read, when a row does not scan or when the
    iteration fails (in this order).  Otherwise it is 200: with the records
    of all the fetched rows and [count] equal to the number of fetched rows
    when the encoder accepts every record, and with nothing written when it
    refuses one, its error being dropped. *)
Theorem generic_all_or_nothing (r : Generic.Request) (req : Generic.QueryRequest)
  (c : DbCall) (rows : Rows) :
  Generic.Decoded r = Some req ->
  snd (Generic.MakeQueryHandler db allowed r) = [c] ->
  db (sqlText c) (sqlArgs c) = Some rows ->
  let resp := fst (Generic.MakeQueryHandler db allowed r) in
  (Columns rows = None /\ resp = httpError "error fetching columns" 500) \/
  (exists cols, Columns rows = Some cols /\
     ((allScan (length cols) (Fetched rows) /\ IterErr rows = false /\
       exists vals,
         Fetched rows = map Some vals /\
         encodes (map (rowMap cols) vals) = true /\
         resp = {| Status := 200;
                   Body := ResultsCount (map (rowMap cols) vals)
                                        (length (Fetched rows)) |}) \/
      (allScan (length cols) (Fetched rows) /\ IterErr rows = false /\
       exists vals,
         Fetched rows = map Some vals /\
         encodes (map (rowMap cols) vals) = false /\
         resp = {| Status := 200; Body := NoBody |}) \/
      (~ allScan (length cols) (Fetched rows) /\
       resp = httpError "error scanning row" 500) \/
      (allScan (length cols) (Fetched rows) /\ IterErr rows = true /\
       resp = httpError "row iteration error" 500))).
Proof.
  intros Hd Hc Hdb resp. subst resp.
  destruct (generic_call_inv db allowed r req c Hd Hc) as (_ & _ & _ & _ & _ & E).
  rewrite E, Hdb. apply generic_respond_cases.
Qed.

End GenericOutcomes.

(** ** Letter case of the query text and the fuzzy flag *)

Lemma allBytes_forallb p (s : string) :
  allBytes p s = forallb p (list_ascii_of_string s).
Proof. induction s as [|c s IH]; simpl; [reflexivity | now rewrite IH]. Qed.

Lemma list_of_mapBytes f (s : string) :
  list_ascii_of_string (mapBytes f s) = map f (list_ascii_of_string s).
Proof. induction s as [|c s IH]; simpl; [reflexivity | now rewrite IH]. Qed.

Lemma mapBytes_of_list f (l : list ascii) :
  mapBytes f (string_of_list_ascii l) = string_of_list_ascii (map f l).
Proof. induction l as [|c l IH]; simpl; [reflexivity | now rewrite IH]. Qed.

Lemma dropWhile_map (p : ascii -> bool) (f : ascii -> ascii) (l : list ascii) :
  (forall c, p (f c) = p c) ->
  dropWhile p (map f l) = map f (dropWhile p l).
Proof.
  intros H. induction l as [|c l IH]; simpl; [reflexivity|].
  rewrite H. destruct (p c); [exact IH | reflexivity].
Qed.

Lemma forallb_dropWhile (p q : ascii -> bool) (l : list ascii) :
  forallb p l = true -> forallb p (dropWhile q l) = true.
Proof.
  induction l as [|c l IH]; simpl; [reflexivity|]. intros H.
  apply andb_true_iff in H as [Hc Hl].
  destruct (q c); [now apply IH | simpl; now rewrite Hc, Hl].
Qed.

Lemma forallb_rev (p : ascii -> bool) (l : list ascii) :
  forallb p (rev l) = forallb p l.
Proof.
  induction l as [|c l IH]; simpl; [reflexivity|].
  rewrite forallb_app, IH. simpl. rewrite andb_true_r. apply andb_comm.
Qed.

Lemma asciiSpace_lowerByte (c : ascii) : asciiSpace (lowerByte c) = asciiSpace c.
Proof. destruct c as [[] [] [] [] [] [] [] []]; reflexivity. Qed.

Lemma nonASCII_lowerByte (c : ascii) : nonASCII (lowerByte c) = nonASCII c.
Proof. destruct c as [[] [] [] [] [] [] [] []]; reflexivity. Qed.

Lemma isASCII_trimBytes (s : string) : isASCII s = true -> isASCII (trimBytes s) = true.
Proof.
  unfold isASCII, trimBytes, trimRightBytes. rewrite !allBytes_forallb. intros H.
  rewrite !list_ascii_of_string_of_list_ascii, forallb_rev.
  apply forallb_dropWhile. rewrite forallb_rev. now apply forallb_dropWhile.
Qed.

Lemma mapBytes_trimBytes (s : string) :
  mapBytes lowerByte (trimBytes s) = trimBytes (mapBytes lowerByte s).
Proof.
  unfold trimBytes, trimRightBytes.
  rewrite !list_ascii_of_string_of_list_ascii, list_of_mapBytes, mapBytes_of_list.
  rewrite (dropWhile_map _ _ _ asciiSpace_lowerByte), <- map_rev.
  rewrite (dropWhile_map _ _ _ asciiSpace_lowerByte), <- map_rev.
  reflexivity.
Qed.

Section CaseOfQueryText.
Context {U : Unicode}.

Lemma trimSpaceRight_ascii (r : list ascii) :
  forallb (fun c => negb (nonASCII c)) r = true ->
  trimSpaceRight r = string_of_list_ascii (rev (dropWhile asciiSpace r)).
Proof.
  induction r as [|c r IH]; [reflexivity|]. intros H.
  cbn [forallb] in H. apply andb_true_iff in H as [Hc Hr].
  apply negb_true_iff in Hc. cbn [trimSpaceRight dropWhile]. rewrite Hc.
  destruct (asciiSpace c); [now apply IH | reflexivity].
Qed.

(** On ASCII-only text [strings.TrimSpace] stays on its fast path. *)
Lemma TrimSpace_ascii (s : string) : isASCII s = true -> TrimSpace s = trimBytes s.
Proof.
  unfold isASCII. induction s as [|c s IH]; [reflexivity|]. intros H.
  pose proof H as Hall. cbn [allBytes] in H.
  apply andb_true_iff in H as [Hc Hs]. apply negb_true_iff in Hc.
  cbn [TrimSpace]. rewrite Hc. unfold trimBytes. cbn [list_ascii_of_string dropWhile].
  destruct (asciiSpace c).
  - rewrite (IH Hs). reflexivity.
  - rewrite trimSpaceRight_ascii.
    + unfold trimRightBytes.
      now rewrite list_ascii_of_string_of_list_ascii.
    + rewrite forallb_rev. rewrite allBytes_forallb in Hall. exact Hall.
Qed.

Lemma cleanedText_ascii (queryText : string) :
  isASCII queryText = true ->
  Ranking.cleanedText queryText = trimBytes (mapBytes lowerByte queryText).
Proof.
  intros H. unfold Ranking.cleanedText, ToLower.
  rewrite (TrimSpace_ascii _ H), (isASCII_trimBytes _ H).
  apply mapBytes_trimBytes.
Qed.

Lemma prepareSearchTerms_same_case (q1 q2 : string) :
  isASCII q1 = true -> isASCII q2 = true ->
  mapBytes lowerByte q1 = mapBytes lowerByte q2 ->
  Ranking.prepareSearchTerms q1 = Ranking.prepareSearchTerms q2.
Proof.
  intros H1 H2 E.
  unfold Ranking.prepareSearchTerms, Ranking.filteredTerms, Ranking.rawTerms.
  now rewrite (cleanedText_ascii _ H1), (cleanedText_ascii _ H2), E.
Qed.

(** X10. Two requests that differ only in the ASCII letter case of an
    ASCII query text, and in the fuzzy flag, get the same run of the
    ranking handler: the same storage call (statement and arguments) and the
    same response.  The fuzzy flag is never read. *)
Theorem ranking_ignores_case_and_fuzzy (db : DB)
  (allowed : gmap string (list string)) (method model : string)
  (fields : list string) (q1 q2 : string) (maxResults : Z) (fuzzy1 fuzzy2 : bool) :
  isASCII q1 = true -> isASCII q2 = true ->
  mapBytes lowerByte q1 = mapBytes lowerByte q2 ->
  Ranking.MakeQueryHandler db allowed
    {| Ranking.Method := method;
       Ranking.Decoded :=
         Some {| Ranking.Model := model; Ranking.Fields := fields;
                 Ranking.QueryText := q1; Ranking.MaxResults := maxResults;
                 Ranking.Fuzzy := fuzzy1 |} |} =
  Ranking.MakeQueryHandler db allowed
    {| Ranking.Method := method;
       Ranking.Decoded :=
         Some {| Ranking.Model := model; Ranking.Fields := fields;
                 Ranking.QueryText := q2; Ranking.MaxResults := maxResults;
                 Ranking.Fuzzy := fuzzy2 |} |}.
Proof.
  intros H1 H2 E.
  assert (Hempty : (q1 =? "") = (q2 =? "")).
  { destruct q1, q2; try reflexivity; discriminate E. }
  assert (Hlower : ToLower q1 = ToLower q2)
    by (unfold ToLower; now rewrite H1, H2, E).
  pose proof (prepareSearchTerms_same_case q1 q2 H1 H2 E) as Hterms.
  unfold Ranking.MakeQueryHandler.
  cbn [Ranking.Method Ranking.Decoded Ranking.Model Ranking.Fields Ranking.QueryText].
  rewrite Hempty.
  destruct (negb (method =? "POST")); [reflexivity|].
  destruct (model =? ""); [reflexivity|].
  destruct (length fields =? 0)%nat; [reflexivity|].
  destruct (q2 =? ""); [reflexivity|].
  unfold Ranking.clampMaxResults. cbn [Ranking.MaxResults Ranking.Model
    Ranking.Fields Ranking.QueryText Ranking.Fuzzy].
  destruct ((maxResults <=? 0)%Z || (100 <? maxResults)%Z);
    cbn [Ranking.Model Ranking.Fields];
    (destruct (allowed !! model) as [cols|]; [|reflexivity]);
    (destruct (Ranking.firstNotAllowed (Ranking.makeAllowedSet cols) fields);
     [reflexivity|]);
    unfold Ranking.buildQuery;
    cbn [Ranking.Model Ranking.Fields Ranking.QueryText Ranking.MaxResults];
    rewrite Hterms, Hlower; reflexivity.
Qed.

End CaseOfQueryText.

(** * The admin side: registry.go *)

(** ** The bearer-token gate *)

Lemma prefix_split (p s : string) :
  String.prefix p s = true -> s = p +:+ Admin.dropBytes (String.length p) s.
Proof.
  revert s. induction p as [|a p IH]; intros s H; [reflexivity|].
  destruct s as [|b s]; [discriminate H|]. simpl in H.
  destruct (ascii_dec a b) as [->|]; [|discriminate H].
  rewrite append_cons. cbn [String.length Admin.dropBytes]. f_equal. now apply IH.
Qed.

Lemma HasPrefix_TrimPrefix (s p : string) :
  Admin.HasPrefix s p = true -> s = p +:+ Admin.TrimPrefix s p.
Proof.
  intros H. unfold Admin.TrimPrefix. rewrite H. now apply prefix_split.
Qed.

Lemma prefix_append (p t : string) : String.prefix p (p +:+ t) = true.
Proof.
  induction p as [|a p IH]; [now destruct t|].
  rewrite append_cons. simpl. destruct (ascii_dec a a) as [_|Hne]; [exact IH|].
  now destruct Hne.
Qed.

Section BearerGate.
Context {Claims : Type}.
Variable secret : string.
Variable parse : string -> string -> Admin.Parsed Claims.

(** X11. [RequireJWT] answers by exactly one of four cases.  A header that
    is not [Bearer ] followed by a token is rejected with 401 and the
    message [missing or invalid Authorization header].  With such a header,
    an empty secret gives 500 and [server misconfiguration]; a token the
    parser refuses under the non-empty secret gives 401 and [invalid token: ]
    followed by the parser's error; a token the parser accepts hands the
    request, with the claims of that token, to the wrapped handler.  A
    rejection is the same whatever the wrapped handler is, makes no storage
    call, and the parser is given the header without its prefix. *)
Theorem bearer_token_gate (r : Admin.Request Claims) :
  ((forall token, Admin.Authorization r <> "Bearer " +:+ token) /\
   forall next,
     Admin.RequireJWT secret parse next r =
     (Admin.httpError "missing or invalid Authorization header" 401, [])) \/
  (exists token,
     Admin.Authorization r = "Bearer " +:+ token /\
     ((secret = "" /\
       forall next,
         Admin.RequireJWT secret parse next r =
         (Admin.httpError "server misconfiguration" 500, [])) \/
      (secret <> "" /\
       exists err,
         parse token secret = Admin.Invalid err /\
         forall next,
           Admin.RequireJWT secret parse next r =
           (Admin.httpError ("invalid token: " +:+ err) 401, [])) \/
      (secret <> "" /\
       exists claims,
         parse token secret = Admin.Valid claims /\
         forall next,
           Admin.RequireJWT secret parse next r =
           next (Admin.withClaims r claims)))).
Proof.
  unfold Admin.RequireJWT. cbv zeta.
  destruct (Admin.HasPrefix (Admin.Authorization r) "Bearer ") eqn:Hp; cbn [negb].
  - assert (Hne : (Admin.Authorization r =? "") = false).
    { destruct (String.eqb_spec (Admin.Authorization r) "") as [E|_]; [|reflexivity].
      rewrite E in Hp. discriminate Hp. }
    rewrite Hne. cbn [orb].
    right. exists (Admin.TrimPrefix (Admin.Authorization r) "Bearer ").
    split; [now apply HasPrefix_TrimPrefix|].
    destruct (String.eqb_spec secret "") as [Hs|Hs]; [left; now split|].
    right.
    destruct (parse (Admin.TrimPrefix (Admin.Authorization r) "Bearer ") secret)
      as [err|claims] eqn:Hparse.
    + left. split; [exact Hs|]. exists err. now split.
    + right. split; [exact Hs|]. exists claims. now split.
  - rewrite orb_true_r. left. split; [|reflexivity].
    intros token E. unfold Admin.HasPrefix in Hp.
    rewrite E, prefix_append in Hp. discriminate Hp.
Qed.

End BearerGate.

(** ** The registry handlers *)

Section Registry.
Context {Claims : Type}.
Variable db : Admin.Store.

Lemma listLoop_all (infos : list Admin.ModelInfo) (acc : option (list Admin.ModelInfo)) :
  Admin.listLoop (map Some infos) acc =
  Some (match infos with
        | [] => acc
        | _ :: _ => Some (default [] acc ++ infos)
        end).
Proof.
  revert acc. induction infos as [|i infos IH]; intros acc; [reflexivity|].
  cbn [map Admin.listLoop]. rewrite IH.
  destruct infos as [|j infos]; destruct acc as [l|]; cbn;
    rewrite <- ?app_assoc; reflexivity.
Qed.

Lemma listLoop_cases (fetched : list (option Admin.ModelInfo))
  (acc : option (list Admin.ModelInfo)) :
  (In None fetched /\ Admin.listLoop fetched acc = None) \/
  (exists infos, fetched = map Some infos).
Proof.
  revert acc. induction fetched as [|row rest IH]; intros acc.
  - right. now exists [].
  - destruct row as [i|]; cbn [Admin.listLoop].
    + destruct (IH (Some match acc with Some l => l ++ [i] | None => [i] end))
        as [(Hin & E) | (infos & ->)].
      * left. split; [now right | exact E].
      * right. now exists (i :: infos).
    + left. split; [now left | reflexivity].
Qed.

(** X12. A registry handler calls the storage only after its own checks
    (the method, and the name or the payload it needs), at most once, with
    its constant statement and with the request data as arguments only; the
    placeholders of each statement are as many as the arguments bound. *)
Theorem registry_calls_after_checks (r : Admin.Request Claims) (c : Admin.Call) :
  (In c (snd (Admin.RegisterModelHandler db r)) ->
   snd (Admin.RegisterModelHandler db r) = [c] /\
   Admin.Method r = "POST" /\
   exists req,
     Admin.Decoded r = Some req /\ Admin.Name req <> "" /\ Admin.Schema req <> "" /\
     c = {| Admin.callSql := Admin.insertSql;
            Admin.callArgs := [Admin.SString (Admin.Name req);
                               Admin.SBytes (Admin.Schema req)] |}) /\
  (In c (snd (Admin.ReadModelHandler db r)) ->
   snd (Admin.ReadModelHandler db r) = [c] /\
   Admin.Method r = "GET" /\ Admin.NameParam r <> "" /\
   c = {| Admin.callSql := Admin.selectSql;
          Admin.callArgs := [Admin.SString (Admin.NameParam r)] |}) /\
  (In c (snd (Admin.ListModelsHandler db r)) ->
   snd (Admin.ListModelsHandler db r) = [c] /\
   Admin.Method r = "GET" /\
   c = {| Admin.callSql := Admin.listSql; Admin.callArgs := [] |}) /\
  (In c (snd (Admin.DeleteModelHandler db r)) ->
   snd (Admin.DeleteModelHandler db r) = [c] /\
   Admin.Method r = "DELETE" /\ Admin.NameParam r <> "" /\
   c = {| Admin.callSql := Admin.deleteSql;
          Admin.callArgs := [Admin.SString (Admin.NameParam r)] |}) /\
  placeholders Admin.insertSql = [1; 2] /\
  placeholders Admin.selectSql = [1] /\
  placeholders Admin.listSql = [] /\
  placeholders Admin.deleteSql = [1].
Proof.
  split; [|split; [|split; [|split]]].
  - unfold Admin.RegisterModelHandler.
    destruct (String.eqb_spec (Admin.Method r) "POST") as [Hm|Hm]; cbn [negb];
      [|intros []].
    destruct (Admin.Decoded r) as [req|]; [|intros []].
    destruct (String.eqb_spec (Admin.Name req) "") as [Hn|Hn]; [intros []|].
    destruct (Admin.Schema req) as [|a sch] eqn:Hsch; [intros []|].
    cbn [String.length Nat.eqb]. cbv zeta.
    set (call := {| Admin.callSql := _; Admin.callArgs := _ |}).
    assert (Hcalls : forall o : Admin.Outcome,
               o = (fst o, [call]) -> In c (snd o) ->
               snd o = [c] /\ Admin.Method r = "POST" /\
               exists req0, Some req = Some req0 /\ Admin.Name req0 <> "" /\
                 Admin.Schema req0 <> "" /\
                 c = {| Admin.callSql := Admin.insertSql;
                        Admin.callArgs := [Admin.SString (Admin.Name req0);
                                           Admin.SBytes (Admin.Schema req0)] |}).
    { intros o -> [<-|[]]. cbn [snd]. split; [reflexivity|]. split; [exact Hm|].
      exists req. rewrite Hsch. repeat split; [exact Hn | discriminate]. }
    apply Hcalls.
    destruct (Admin.scanInsert db _ _) as [e|[[id v] t]];
      [destruct (Admin.isPqCode e "23505")|]; reflexivity.
  - unfold Admin.ReadModelHandler.
    destruct (String.eqb_spec (Admin.Method r) "GET") as [Hm|Hm]; cbn [negb];
      [|intros []].
    cbv zeta.
    destruct (String.eqb_spec (Admin.NameParam r) "") as [Hn|Hn]; [intros []|].
    destruct (Admin.scanModel db _ _) as [[| |]|info]; cbn [snd];
      intros [<-|[]]; repeat split; assumption.
  - unfold Admin.ListModelsHandler.
    destruct (String.eqb_spec (Admin.Method r) "GET") as [Hm|Hm]; cbn [negb];
      [|intros []].
    cbv zeta.
    destruct (Admin.queryModels db _ _) as [rows|];
      [destruct (Admin.listLoop _ _); [destruct (Admin.ModelsIterErr rows)|]|];
      cbn [snd]; intros [<-|[]]; repeat split; assumption.
  - unfold Admin.DeleteModelHandler.
    destruct (String.eqb_spec (Admin.Method r) "DELETE") as [Hm|Hm]; cbn [negb];
      [|intros []].
    cbv zeta.
    destruct (String.eqb_spec (Admin.NameParam r) "") as [Hn|Hn]; [intros []|].
    destruct (Admin.exec db _ _) as [e|count];
      [destruct (Admin.isPqCode e "23503") | destruct (count =? 0)%Z];
      cbn [snd]; intros [<-|[]]; repeat split; assumption.
  - repeat split; vm_compute; reflexivity.
Qed.

(** X13. [ListModelsHandler] sends all the models or none: once the
    storage has answered with a cursor, the response is 200 with every
    fetched model in cursor order when all rows scan and the iteration ends
    without an error, and a 500 without any model otherwise.  With no row
    the slice sent is nil (JSON [null]), not an empty array. *)
Theorem list_models_all_or_nothing (r : Admin.Request Claims) (rows : Admin.ModelRows) :
  Admin.Method r = "GET" ->
  Admin.queryModels db Admin.listSql [] = Some rows ->
  let resp := fst (Admin.ListModelsHandler db r) in
  (exists infos,
     Admin.FetchedModels rows = map Some infos /\
     Admin.ModelsIterErr rows = false /\
     resp = {| Admin.Status := 200;
               Admin.Content := Admin.Models (match infos with
                                              | [] => None
                                              | _ :: _ => Some infos
                                              end) |}) \/
  (In None (Admin.FetchedModels rows) /\
   resp = Admin.httpError "row scan error" 500) \/
  (~ In None (Admin.FetchedModels rows) /\
   Admin.ModelsIterErr rows = true /\
   resp = Admin.httpError "row iteration error" 500).
Proof.
  intros Hm Hq resp. subst resp. unfold Admin.ListModelsHandler.
  rewrite Hm. cbn [String.eqb negb]. cbv zeta. rewrite Hq.
  destruct (listLoop_cases (Admin.FetchedModels rows) None)
    as [(Hin & ->) | (infos & E)].
  - right. left. now split.
  - rewrite E, listLoop_all.
    assert (Hno : ~ In None (map Some infos)).
    { intros H. apply in_map_iff in H as (i & Hi & _). discriminate Hi. }
    destruct (Admin.ModelsIterErr rows) eqn:Herr.
    + right. right. cbn [fst]. now repeat split.
    + left. exists infos. cbn [fst]. split; [reflexivity|]. split; [reflexivity|].
      destruct infos; reflexivity.
Qed.

(** X14. The answers of the three other registry handlers to a request
    that passed their checks, by the answer of the storage.  Registration:
    201 with the name and schema of the request and the id, version and
    date of the storage; 409 for the driver's code 23505 only; 500 for
    every other error.  Reading: 200 with the row, 404 for no row, 500
    otherwise.  Deletion: 204 when the count of affected rows is not 0, 404
    when it is 0, 409 for the driver's code 23503 only, 500 otherwise. *)
Theorem registry_status_contract :
  (forall (r : Admin.Request Claims) req,
     Admin.Method r = "POST" -> Admin.Decoded r = Some req ->
     Admin.Name req <> "" -> Admin.Schema req <> "" ->
     let resp := fst (Admin.RegisterModelHandler db r) in
     let answer := Admin.scanInsert db Admin.insertSql
                     [Admin.SString (Admin.Name req); Admin.SBytes (Admin.Schema req)] in
     (forall id version createdAt,
        answer = inr (id, version, createdAt) ->
        resp = {| Admin.Status := 201;
                  Admin.Content :=
                    Admin.Info {| Admin.ID := id; Admin.InfoName := Admin.Name req;
                                  Admin.InfoSchema := Admin.Schema req;
                                  Admin.Version := version;
                                  Admin.CreatedAt := createdAt |} |}) /\
     (answer = inl (Admin.PqError "23505") ->
      resp = Admin.httpError "model already exists" 409) /\
     (forall e, answer = inl e -> e <> Admin.PqError "23505" ->
                resp = Admin.httpError "database insert error" 500)) /\
  (forall r : Admin.Request Claims,
     Admin.Method r = "GET" -> Admin.NameParam r <> "" ->
     let resp := fst (Admin.ReadModelHandler db r) in
     let answer := Admin.scanModel db Admin.selectSql
                     [Admin.SString (Admin.NameParam r)] in
     (forall info, answer = inr info ->
                   resp = {| Admin.Status := 200; Admin.Content := Admin.Info info |}) /\
     (answer = inl Admin.ErrNoRows -> resp = Admin.httpError "model not found" 404) /\
     (forall e, answer = inl e -> e <> Admin.ErrNoRows ->
                resp = Admin.httpError "database query error" 500)) /\
  (forall r : Admin.Request Claims,
     Admin.Method r = "DELETE" -> Admin.NameParam r <> "" ->
     let resp := fst (Admin.DeleteModelHandler db r) in
     let answer := Admin.exec db Admin.deleteSql
                     [Admin.SString (Admin.NameParam r)] in
     (forall count, answer = inr count -> count <> 0%Z ->
                    resp = {| Admin.Status := 204; Admin.Content := Admin.Empty |}) /\
     (answer = inr 0%Z -> resp = Admin.httpError "model not found" 404) /\
     (answer = inl (Admin.PqError "23503") ->
      resp = Admin.httpError "cannot delete: model in use" 409) /\
     (forall e, answer = inl e -> e <> Admin.PqError "23503" ->
                resp = Admin.httpError "database delete error" 500)).
Proof.
  split; [|split].
  - intros r req Hm Hd Hn Hs resp answer. subst resp answer.
    unfold Admin.RegisterModelHandler. rewrite Hm, Hd. cbn [String.eqb negb].
    apply String.eqb_neq in Hn. rewrite Hn.
    destruct (Admin.Schema req) as [|a sch] eqn:Hsch; [congruence|].
    cbn [String.length Nat.eqb]. cbv zeta. rewrite <- Hsch.
    split; [|split].
    + intros id v t ->. reflexivity.
    + intros ->. reflexivity.
    + intros e -> He. destruct e as [|code|]; try reflexivity.
      cbn [Admin.isPqCode].
      destruct (String.eqb_spec code "23505") as [->|_]; [congruence | reflexivity].
  - intros r Hm Hn resp answer. subst resp answer.
    unfold Admin.ReadModelHandler. rewrite Hm. cbn [String.eqb negb]. cbv zeta.
    apply String.eqb_neq in Hn. rewrite Hn.
    split; [|split].
    + intros info ->. reflexivity.
    + intros ->. reflexivity.
    + intros e -> He. destruct e; [congruence | reflexivity | reflexivity].
  - intros r Hm Hn resp answer. subst resp answer.
    unfold Admin.DeleteModelHandler. rewrite Hm. cbn [String.eqb negb]. cbv zeta.
    apply String.eqb_neq in Hn. rewrite Hn.
    split; [|split; [|split]].
    + intros count -> Hc. apply Z.eqb_neq in Hc. now rewrite Hc.
    + intros ->. reflexivity.
    + intros ->. reflexivity.
    + intros e -> He. destruct e as [|code|]; try reflexivity.
      cbn [Admin.isPqCode].
      destruct (String.eqb_spec code "23503") as [->|_]; [congruence | reflexivity].
Qed.

End Registry.

(** ** Concrete runs of the further properties *)

Lemma broken_run :
  snd (@Ranking.MakeQueryHandler asciiOnly (dbOf brokenRows) allowedMain
         (post laptopRequest)) = [laptopCall].
Proof. vm_compute. reflexivity. Qed.

Lemma brokenRows_do_not_scan : ~ allScan 2 (Fetched brokenRows).
Proof.
  intros H. inversion H as [|? ? _ H2]. inversion H2 as [|? ? (v & Hv & _) _].
  discriminate Hv.
Qed.

Lemma ranking_all_or_nothing_witness :
  fst (@Ranking.MakeQueryHandler asciiOnly (dbOf brokenRows) allowedMain
         (post laptopRequest)) = httpError "row scan error" 500.
Proof.
  destruct (@ranking_all_or_nothing asciiOnly (dbOf brokenRows) allowedMain
              (post laptopRequest) laptopRequest laptopCall brokenRows
              eq_refl broken_run eq_refl)
    as [(H & _) | [(H & _) | [(_ & H) | (H & _)]]].
  - destruct (brokenRows_do_not_scan H).
  - destruct (brokenRows_do_not_scan H).
  - exact H.
  - destruct (brokenRows_do_not_scan H).
Defined.

Lemma terms_hold_no_separator_witness :
  Forall (fun term =>
            allBytes (fun c => negb (Ranking.isSeparator c)) term = true)
         (@Ranking.prepareSearchTerms asciiOnly shoppingQuery).
Proof.
  apply (@terms_hold_no_separator asciiOnly shoppingQuery).
  vm_compute. discriminate.
Defined.

Lemma mixed_run :
  snd (Generic.MakeQueryHandler (dbOf noColumns) allowedMain
         (genericPost ["name"; "bogus"; "category"] "Laptop" 500)) = [mixedCall].
Proof. vm_compute. reflexivity. Qed.

Lemma generic_statement_and_arguments_witness :
  placeholders (sqlText mixedCall) = [1; 1; 2] /\ length (sqlArgs mixedCall) = 2.
Proof.
  destruct (generic_statement_and_arguments (dbOf noColumns) allowedMain
              (genericPost ["name"; "bogus"; "category"] "Laptop" 500)
              _ mixedCall eq_refl mixed_run)
    as (_ & _ & _ & Hlen & Hph).
  split; [|exact Hlen]. rewrite (Hph allowedMain_clean). vm_compute. reflexivity.
Defined.

Lemma generic_all_or_nothing_witness :
  fst (Generic.MakeQueryHandler (dbOf noColumns) allowedMain
         (genericPost ["name"; "bogus"; "category"] "Laptop" 500)) =
  httpError "error fetching columns" 500.
Proof.
  destruct (generic_all_or_nothing (dbOf noColumns) allowedMain
              (genericPost ["name"; "bogus"; "category"] "Laptop" 500)
              _ mixedCall noColumns eq_refl mixed_run eq_refl)
    as [(_ & H) | (cols & Hcols & _)].
  - exact H.
  - discriminate Hcols.
Defined.

Lemma ranking_ignores_case_and_fuzzy_witness :
  @Ranking.MakeQueryHandler asciiOnly (dbOf twoRows) allowedMain
    {| Ranking.Method := "POST";
       Ranking.Decoded :=
         Some {| Ranking.Model := "items"; Ranking.Fields := ["id"; "name"];
                 Ranking.QueryText := "LAPTOP Stand"; Ranking.MaxResults := 0;
                 Ranking.Fuzzy := true |} |} =
  @Ranking.MakeQueryHandler asciiOnly (dbOf twoRows) allowedMain (post laptopRequest).
Proof.
  apply (@ranking_ignores_case_and_fuzzy asciiOnly (dbOf twoRows) allowedMain
           "POST" "items" ["id"; "name"] "LAPTOP Stand" "Laptop stand" 0 true false);
    reflexivity.
Defined.

Lemma list_models_all_or_nothing_witness :
  fst (Admin.ListModelsHandler emptyStore listRequest) =
  {| Admin.Status := 200; Admin.Content := Admin.Models None |}.
Proof.
  destruct (@list_models_all_or_nothing unit emptyStore listRequest
              {| Admin.FetchedModels := []; Admin.ModelsIterErr := false |}
              eq_refl eq_refl)
    as [(infos & Hf & _ & H) | [(Hin & _) | (_ & Herr & _)]].
  - destruct infos; [exact H | discriminate Hf].
  - destruct Hin.
  - discriminate Herr.
Defined.

(** The registration route of [main.go], [RequireJWT] around
    [RegisterModelHandler], for a token the parser accepts. *)
Lemma bearer_token_gate_witness :
  Admin.RequireJWT "secret" acceptAbc (Admin.RegisterModelHandler emptyStore)
    registerRequest =
  ({| Admin.Status := 201;
      Admin.Content :=
        Admin.Info {| Admin.ID := 1; Admin.InfoName := "items";
                      Admin.InfoSchema := "{}"; Admin.Version := 1;
                      Admin.CreatedAt := "2024-01-01T00:00:00Z" |} |},
   [{| Admin.callSql := Admin.insertSql;
       Admin.callArgs := [Admin.SString "items"; Admin.SBytes "{}"] |}]).
Proof.
  destruct (@bearer_token_gate unit "secret" acceptAbc registerRequest)
    as [(Hno & _) | (token & Htoken & [(Hs & _) | [(_ & err & Hp & _) | (_ & claims & _ & H)]])].
  - destruct (Hno "abc" eq_refl).
  - discriminate Hs.
  - cbv in Htoken. inversion Htoken; subst token. discriminate Hp.
  - rewrite H. destruct claims. vm_compute. reflexivity.
Defined.
